(** * new-ecron: profiles schema, auth service wrapper and session context

    A shallow embedding of

    - [supabase/migrations/20250801050644_steep_morning.sql]: the [profiles]
      table, its constraints, its row-level-security policies and its two
      triggers (module [Pg]);
    - [client/src/lib/auth.ts]: the [AuthService] wrapper around the hosted
      SDK (module [AuthService]);
    - the [AuthProvider] session context (module [AuthProvider]).

    The hosted SDK is the environment of the client code.  Its calls are the
    constructors of [Op]; an [async] function body is a finite tree of such
    calls ([Prog]); a [Handler] gives the calls a meaning over some world.
    Module [Supabase] is one such handler, built on the database of [Pg]. *)

From Stdlib Require Import String List ZArith Bool Lia.
Import ListNotations.
Local Open Scope string_scope.
Local Open Scope list_scope.

Set Implicit Arguments.

(** ** Shared data *)

Definition uuid := string.
Definition timestamptz := Z.

(** [CREATE TYPE user_role AS ENUM ('user', 'admin', 'instructor')] *)
Inductive user_role : Set := user | admin | instructor.

Definition user_role_eqb (a b : user_role) : bool :=
  match a, b with
  | user, user | admin, admin | instructor, instructor => true
  | _, _ => false
  end.

(** The enum label, as it travels in JSON. *)
Definition role_text (r : user_role) : string :=
  match r with
  | user => "user"
  | admin => "admin"
  | instructor => "instructor"
  end.

(** [text::user_role]; an unknown label raises. *)
Definition cast_user_role (s : string) : option user_role :=
  if s =? "user" then Some user
  else if s =? "admin" then Some admin
  else if s =? "instructor" then Some instructor
  else None.

(** [options.data] of the sign-up call, stored as [raw_user_meta_data].
    A key whose value is [undefined] is absent from the JSON. *)
Record UserMetadata : Set := {
  meta_full_name : option string;
  meta_role : option string
}.

(** ** The database of the migration *)
Module Pg.

(** SQLSTATE classes the schema can raise. *)
Inductive PgError : Set :=
| not_null_violation          (* 23502 *)
| foreign_key_violation       (* 23503 *)
| unique_violation            (* 23505 *)
| invalid_text_representation (* 22P02 *)
| insufficient_privilege      (* 42501, row-level security *)
| infinite_recursion.         (* 42P17, a policy that reads its own table *)

(** [auth.users], as far as the migration reads it. *)
Record UsersRow : Set := {
  u_id : uuid;
  u_email : option string;
  u_password : string;
  raw_user_meta_data : UserMetadata
}.

(** [CREATE TABLE profiles (...)] *)
Record Row : Set := {
  id : uuid;
  email : string;
  full_name : option string;
  avatar_url : option string;
  role : user_role;
  created_at : timestamptz;
  updated_at : timestamptz
}.

Record Database : Set := {
  auth_users : list UsersRow;
  profiles : list Row
}.

Definition empty : Database := {| auth_users := []; profiles := [] |}.

(** Who runs a statement: the [anon] role, the [authenticated] role with
    its [auth.uid()], or the table owner (a [SECURITY DEFINER] function),
    for whom row-level security does not apply. *)
Inductive DbRole : Set :=
| anon
| authenticated (uid : uuid)
| owner.

(** *** Row-level security

    [ALTER TABLE profiles ENABLE ROW LEVEL SECURITY] and five policies, every
    one of them [TO authenticated]. *)
Inductive Command : Set := for_select | for_insert | for_update.

Definition command_eqb (a b : Command) : bool :=
  match a, b with
  | for_select, for_select | for_insert, for_insert | for_update, for_update => true
  | _, _ => false
  end.

(** The two expressions the policies are written with. *)
Inductive Expr : Set :=
| uid_is_id      (* auth.uid() = id *)
| exists_admin.  (* EXISTS (SELECT 1 FROM profiles
                            WHERE id = auth.uid() AND role = 'admin') *)

Record Policy : Set := {
  polname : string;
  polcmd : Command;
  polqual : option Expr;        (* USING *)
  polwithcheck : option Expr    (* WITH CHECK *)
}.

Definition users_view_own : Policy :=
  {| polname := "Users can view their own profile"; polcmd := for_select;
     polqual := Some uid_is_id; polwithcheck := None |}.
Definition users_update_own : Policy :=
  {| polname := "Users can update their own profile"; polcmd := for_update;
     polqual := Some uid_is_id; polwithcheck := Some uid_is_id |}.
Definition admins_view_all : Policy :=
  {| polname := "Admins can view all profiles"; polcmd := for_select;
     polqual := Some exists_admin; polwithcheck := None |}.
Definition admins_update_all : Policy :=
  {| polname := "Admins can update all profiles"; polcmd := for_update;
     polqual := Some exists_admin; polwithcheck := None |}.
Definition allow_creation : Policy :=
  {| polname := "Allow profile creation during signup"; polcmd := for_insert;
     polqual := None; polwithcheck := Some uid_is_id |}.

Definition policies : list Policy :=
  [users_view_own; users_update_own; admins_view_all; admins_update_all;
   allow_creation].

(** [auth.uid() = i]; there is no [auth.uid()] without a JWT. *)
Definition is_uid (c : DbRole) (i : uuid) : bool :=
  match c with
  | authenticated uid => uid =? i
  | _ => false
  end.

(** The policies of a command that apply to a caller. *)
Definition applies (c : DbRole) (cmd : Command) (p : Policy) : bool :=
  match c with
  | authenticated _ => command_eqb (polcmd p) cmd
  | _ => false
  end.

Definition using_exprs (c : DbRole) (cmd : Command) : list Expr :=
  flat_map (fun p => match polqual p with Some e => [e] | None => [] end)
           (filter (applies c cmd) policies).

(** A policy without WITH CHECK is checked by its USING expression. *)
Definition check_exprs (c : DbRole) (cmd : Command) : list Expr :=
  flat_map (fun p => match polwithcheck p, polqual p with
                     | Some e, _ => [e]
                     | None, Some e => [e]
                     | None, None => []
                     end)
           (filter (applies c cmd) policies).

(** Permissive policies are combined with OR; with none to combine, no row
    passes. *)
Fixpoint any_of (qs : list (PgError + (Row -> bool))) : PgError + (Row -> bool) :=
  match qs with
  | [] => inr (fun _ => false)
  | q :: rest =>
      match q with
      | inl e => inl e
      | inr f =>
          match any_of rest with
          | inl e => inl e
          | inr g => inr (fun r => f r || g r)
          end
      end
  end.

(** The rewriter turns the policy expressions into a filter on the rows of
    [profiles] before a row is read.  A subquery inside a policy is a query
    like any other: when it reads [profiles], the policies of [profiles] are
    applied to it in turn, and finding them already being applied
    ([expanding]) the rewriter stops the statement with "infinite recursion
    detected in policy for relation profiles".  The table owner is not
    subject to the policies.  [depth] bounds the nesting of subqueries. *)
Fixpoint expand (depth : nat) (c : DbRole) (expanding : bool)
    (exprs : list Expr) (tbl : list Row) : PgError + (Row -> bool) :=
  match c with
  | owner => inr (fun _ => true)
  | _ =>
      if expanding then inl infinite_recursion
      else
        match depth with
        | O => inl infinite_recursion
        | S d =>
            any_of
              (map (fun e =>
                      match e with
                      | uid_is_id => inr (fun r => is_uid c (id r))
                      | exists_admin =>
                          match expand d c true (using_exprs c for_select) tbl with
                          | inl err => inl err
                          | inr visible =>
                              inr (fun _ =>
                                     existsb (fun p => visible p
                                                       && is_uid c (id p)
                                                       && user_role_eqb (role p) admin)
                                             tbl)
                          end
                      end)
                   exprs)
        end
  end.

(** One table, so one level of subqueries at most. *)
Definition nesting : nat := 2.

Definition rls_select (c : DbRole) (tbl : list Row) : PgError + (Row -> bool) :=
  expand nesting c false (using_exprs c for_select) tbl.

Definition rls_update_using (c : DbRole) (tbl : list Row)
    : PgError + (Row -> bool) :=
  expand nesting c false (using_exprs c for_update) tbl.

Definition rls_update_check (c : DbRole) (tbl : list Row)
    : PgError + (Row -> bool) :=
  expand nesting c false (check_exprs c for_update) tbl.

(** "Allow profile creation during signup": WITH CHECK (auth.uid() = id),
    an expression without a subquery. *)
Definition allow_creation_check (uid : uuid) (r : Row) : bool := uid =? id r.

Definition rls_insert_check (c : DbRole) (r : Row) : bool :=
  match c with
  | owner => true
  | anon => false
  | authenticated uid => allow_creation_check uid r
  end.

Definition mem (s : string) (l : list string) : bool :=
  existsb (String.eqb s) l.

Fixpoint distinct (l : list string) : bool :=
  match l with
  | [] => true
  | x :: rest => negb (mem x rest) && distinct rest
  end.

Definition ids (tbl : list Row) : list uuid := map id tbl.
Definition emails (tbl : list Row) : list string := map email tbl.
Definition user_ids (us : list UsersRow) : list uuid := map u_id us.

(** *** INSERT INTO profiles (id, email, full_name, role) *)
Record InsertValues : Set := {
  v_id : uuid;
  v_email : option string;
  v_full_name : option string;
  v_role : user_role
}.

(** The columns left out take their defaults: [avatar_url] NULL,
    [created_at] and [updated_at] NOW(). *)
Definition new_row (now : timestamptz) (v : InsertValues) (e : string) : Row :=
  {| id := v_id v; email := e; full_name := v_full_name v;
     avatar_url := None; role := v_role v;
     created_at := now; updated_at := now |}.

Definition insert_profile (c : DbRole) (now : timestamptz) (db : Database)
    (v : InsertValues) : PgError + Database :=
  match v_email v with
  | None => inl not_null_violation                      (* email NOT NULL *)
  | Some e =>
      let r := new_row now v e in
      if negb (rls_insert_check c r) then inl insufficient_privilege
      else if mem (id r) (ids (profiles db)) then inl unique_violation (* PRIMARY KEY *)
      else if mem e (emails (profiles db)) then inl unique_violation   (* UNIQUE *)
      else if negb (mem (id r) (user_ids (auth_users db)))
           then inl foreign_key_violation               (* REFERENCES auth.users(id) *)
      else inr {| auth_users := auth_users db;
                  profiles := profiles db ++ [r] |}
  end.

(** *** handle_new_user(), AFTER INSERT ON auth.users, SECURITY DEFINER *)
Definition coalesce {A : Type} (x : option A) (d : A) : A :=
  match x with Some a => a | None => d end.

Definition handle_new_user (now : timestamptz) (db : Database)
    (NEW : UsersRow) : PgError + Database :=
  let meta := raw_user_meta_data NEW in
  match
    match meta_role meta with
    | None => Some user
    | Some s => cast_user_role s
    end
  with
  | None => inl invalid_text_representation
  | Some r =>
      insert_profile owner now db
        {| v_id := u_id NEW;
           v_email := u_email NEW;
           v_full_name := Some (coalesce (meta_full_name meta) "");
           v_role := r |}
  end.

(** A row entering [auth.users]: the key the foreign key refers to is
    unique, and the trigger runs in the same transaction, so its failure
    undoes the insert. *)
Definition insert_user (now : timestamptz) (db : Database)
    (NEW : UsersRow) : PgError + Database :=
  if mem (u_id NEW) (user_ids (auth_users db)) then inl unique_violation
  else handle_new_user now
         {| auth_users := auth_users db ++ [NEW]; profiles := profiles db |}
         NEW.

(** [ON DELETE CASCADE] *)
Definition delete_user (db : Database) (uid : uuid) : Database :=
  {| auth_users := filter (fun u => negb (u_id u =? uid)) (auth_users db);
     profiles := filter (fun p => negb (id p =? uid)) (profiles db) |}.

(** *** UPDATE profiles SET ... WHERE ... *)
Record UpdateValues : Set := {
  set_id : option uuid;
  set_email : option string;
  set_full_name : option (option string);
  set_avatar_url : option (option string);
  set_role : option user_role;
  set_created_at : option timestamptz;
  set_updated_at : option timestamptz
}.

Definition apply_set (s : UpdateValues) (r : Row) : Row :=
  {| id := coalesce (set_id s) (id r);
     email := coalesce (set_email s) (email r);
     full_name := coalesce (set_full_name s) (full_name r);
     avatar_url := coalesce (set_avatar_url s) (avatar_url r);
     role := coalesce (set_role s) (role r);
     created_at := coalesce (set_created_at s) (created_at r);
     updated_at := coalesce (set_updated_at s) (updated_at r) |}.

(** update_updated_at_column(), BEFORE UPDATE ON profiles:
    [NEW.updated_at = NOW()] *)
Definition update_updated_at_column (now : timestamptz) (NEW : Row) : Row :=
  {| id := id NEW; email := email NEW; full_name := full_name NEW;
     avatar_url := avatar_url NEW; role := role NEW;
     created_at := created_at NEW; updated_at := now |}.

(** Row by row: a row the WHERE clause or the USING filter [may] leaves out
    is kept as it is; a new row that fails WITH CHECK aborts the
    statement. *)
Fixpoint update_rows (may check : Row -> bool) (now : timestamptz)
    (where_ : Row -> bool) (s : UpdateValues) (rows : list Row)
    : PgError + list Row :=
  match rows with
  | [] => inr []
  | r :: rest =>
      if where_ r && may r then
        let NEW := update_updated_at_column now (apply_set s r) in
        if check NEW then
          match update_rows may check now where_ s rest with
          | inr rest' => inr (NEW :: rest')
          | inl e => inl e
          end
        else inl insufficient_privilege
      else
        match update_rows may check now where_ s rest with
        | inr rest' => inr (r :: rest')
        | inl e => inl e
        end
  end.

(** The statement is rewritten first: the rows it may touch are those the
    SELECT policies show and the UPDATE policies let through.  Then it runs,
    and the constraints are checked on what it leaves. *)
Definition update_profiles (c : DbRole) (now : timestamptz) (db : Database)
    (where_ : Row -> bool) (s : UpdateValues) : PgError + Database :=
  match rls_select c (profiles db) with
  | inl e => inl e
  | inr visible =>
      match rls_update_using c (profiles db) with
      | inl e => inl e
      | inr passes =>
          match rls_update_check c (profiles db) with
          | inl e => inl e
          | inr check =>
              match update_rows (fun r => visible r && passes r) check now
                      where_ s (profiles db) with
              | inl e => inl e
              | inr tbl =>
                  if negb (distinct (ids tbl)) then inl unique_violation
                  else if negb (distinct (emails tbl)) then inl unique_violation
                  else if negb (forallb (fun i => mem i (user_ids (auth_users db)))
                                        (ids tbl))
                       then inl foreign_key_violation
                  else inr {| auth_users := auth_users db; profiles := tbl |}
              end
          end
      end
  end.

(** *** SELECT ... FROM profiles WHERE ... *)
Definition select_profiles (c : DbRole) (db : Database)
    (where_ : Row -> bool) : PgError + list Row :=
  match rls_select c (profiles db) with
  | inl e => inl e
  | inr visible => inr (filter (fun r => where_ r && visible r) (profiles db))
  end.

(** The declared constraints, as a check on a database: PRIMARY KEY and
    UNIQUE on [profiles], the key of [auth.users], and the foreign key. *)
Definition consistent (db : Database) : bool :=
  distinct (ids (profiles db))
  && distinct (emails (profiles db))
  && distinct (user_ids (auth_users db))
  && forallb (fun i => mem i (user_ids (auth_users db))) (ids (profiles db)).

(** The rows of [profiles] with a given key. *)
Definition rows_of (uid : uuid) (tbl : list Row) : list Row :=
  filter (fun p => id p =? uid) tbl.

End Pg.

(** ** Values of the client *)

(** A JavaScript error object: [AuthError], [PostgrestError] and plain
    [Error] are all cast to one another by the service. *)
Record JsError : Set := {
  err_name : string;
  err_message : string
}.

(** The SDK's [User], of which the client reads [id] and [email]. *)
Record User : Set := {
  user_id : uuid;
  user_email : option string
}.

Record Session : Set := {
  access_token : string;
  session_user : User
}.

(** The columns [select('full_name, avatar_url, role')] returns. *)
Record Profile : Set := {
  p_full_name : option string;
  p_avatar_url : option string;
  p_role : user_role
}.

(** [interface AuthUser extends User { profile?: ... }] *)
Record AuthUser : Set := {
  base : User;
  profile : option Profile
}.

(** [authData.user as AuthUser] *)
Definition as_AuthUser (u : User) : AuthUser := {| base := u; profile := None |}.

Record SignUpData : Set := {
  su_email : string;
  su_password : string;
  su_fullName : option string;
  su_role : option user_role
}.

Record SignInData : Set := {
  si_email : string;
  si_password : string
}.

Record AuthResponse : Set := {
  resp_user : option AuthUser;
  resp_session : option Session;
  resp_error : option JsError
}.

Record SessionResponse : Set := {
  sr_session : option Session;
  sr_error : option JsError
}.

(** [updates: { full_name?: string; avatar_url?: string }], as declared: an
    object of exactly these keys.  The spread in updateProfile copies every
    own key of the object it is handed, whatever its type says; a caller that
    slips further keys past the type checker is outside this record. *)
Record ProfileUpdates : Set := {
  upd_full_name : option string;
  upd_avatar_url : option string
}.

(** ** The SDK surface the client consumes *)

(** [{ data: { user, session }, error }] *)
Record AuthReply : Set := {
  data_user : option User;
  data_session : option Session;
  auth_error : option JsError
}.

(** [{ data: { user }, error }] *)
Record UserReply : Set := {
  got_user : option User;
  got_error : option JsError
}.

(** [{ data: profile, error }] of [.single()] *)
Record SingleReply : Set := {
  single_data : option Profile;
  single_error : option JsError
}.

Inductive Op : Type -> Type :=
| auth_signUp (email password : string) (data : UserMetadata) : Op AuthReply
| auth_signInWithPassword (email password : string) : Op AuthReply
| auth_signOut : Op (option JsError)
| auth_getSession : Op SessionResponse
| auth_getUser : Op UserReply
| auth_updateUser (password : string) : Op (option JsError)
| auth_resetPasswordForEmail (email redirectTo : string) : Op (option JsError)
| profiles_insert (values : Pg.InsertValues) : Op (option JsError)
| profiles_select_single (eq_id : uuid) : Op SingleReply
| profiles_update (values : Pg.UpdateValues) (eq_id : uuid) : Op (option JsError)
| Date_now : Op timestamptz
| window_location_origin : Op string.

(** How a promise settles. *)
Inductive Settled (A : Type) : Type :=
| Fulfilled (a : A)
| Rejected (e : JsError).
Arguments Fulfilled {A} a.
Arguments Rejected {A} e.

Inductive Console : Set :=
| console_error (label : string) (e : option JsError)
| console_log (label event : string) (email : option string).

(** The body of an [async] function: it returns, throws, awaits an SDK call
    and goes on with what the call settled to, or writes to the console. *)
Inductive Prog (A : Type) : Type :=
| Ret (a : A)
| Throw (e : JsError)
| Call (X : Type) (op : Op X) (k : Settled X -> Prog A)
| Print (c : Console) (k : Prog A).
Arguments Ret {A} a.
Arguments Throw {A} e.
Arguments Call {A X} op k.
Arguments Print {A} c k.

Fixpoint bind {A B : Type} (p : Prog A) (f : A -> Prog B) : Prog B :=
  match p with
  | Ret a => f a
  | Throw e => Throw e
  | Call op k => Call op (fun r => bind (k r) f)
  | Print c k => Print c (bind k f)
  end.

(** [try { p } catch (error) { h error }] *)
Fixpoint try_catch {A : Type} (p : Prog A) (h : JsError -> Prog A) : Prog A :=
  match p with
  | Ret a => Ret a
  | Throw e => h e
  | Call op k => Call op (fun r => try_catch (k r) h)
  | Print c k => Print c (try_catch k h)
  end.

(** [await op]: a rejected promise throws. *)
Definition await {X : Type} (op : Op X) : Prog X :=
  Call op (fun r => match r with Fulfilled x => Ret x | Rejected e => Throw e end).

Definition print (c : Console) : Prog unit := Print c (Ret tt).

Declare Scope prog_scope.
Delimit Scope prog_scope with prog.
Notation "x <- p ;; q" := (bind p (fun x => q))
  (at level 61, p at next level, right associativity) : prog_scope.
Notation "p ;; q" := (bind p (fun _ => q))
  (at level 61, right associativity) : prog_scope.
Local Open Scope prog_scope.

(** ** client/src/lib/auth.ts *)
Module AuthService.

(** [fullName || null]: the empty string is falsy. *)
Definition or_null (s : option string) : option string :=
  match s with
  | Some x => if x =? "" then None else Some x
  | None => None
  end.

Definition TypeError_reading_id : JsError :=
  {| err_name := "TypeError";
     err_message := "Cannot read properties of null (reading 'id')" |}.

Definition failed (error : JsError) : AuthResponse :=
  {| resp_user := None; resp_session := None; resp_error := Some error |}.

Definition signUp (data : SignUpData) : Prog AuthResponse :=
  try_catch
    (let email := su_email data in
     let password := su_password data in
     let fullName := su_fullName data in
     let role := Pg.coalesce (su_role data) user in
     r <- await (auth_signUp email password
                   {| meta_full_name := fullName;
                      meta_role := Some (role_text role) |}) ;;
     match auth_error r with
     | Some authError =>
         print (console_error "Sign up error:" (Some authError)) ;;
         Ret (failed authError)
     | None =>
         match data_user r with
         | Some u =>
             profileError <- await (profiles_insert
                               {| Pg.v_id := user_id u;
                                  Pg.v_email := user_email u;
                                  Pg.v_full_name := or_null fullName;
                                  Pg.v_role := role |}) ;;
             match profileError with
             | Some e => print (console_error "Profile creation error:" (Some e))
             | None => Ret tt
             end
         | None => Ret tt
         end ;;
         Ret {| resp_user := option_map as_AuthUser (data_user r);
                resp_session := data_session r;
                resp_error := None |}
     end)
    (fun error =>
       print (console_error "Unexpected sign up error:" (Some error)) ;;
       Ret (failed error)).

Definition getUserWithProfile (userId : string) : Prog (option AuthUser) :=
  try_catch
    (r <- await auth_getUser ;;
     match got_error r, got_user r with
     | None, Some u =>
         s <- await (profiles_select_single userId) ;;
         match single_error s with
         | Some profileError =>
             print (console_error "Profile fetch error:" (Some profileError)) ;;
             Ret (Some (as_AuthUser u))
         | None =>
             Ret (Some {| base := u; profile := single_data s |})
         end
     | _, _ => Ret None
     end)
    (fun error =>
       print (console_error "Unexpected get user with profile error:" (Some error)) ;;
       Ret None).

Definition signIn (data : SignInData) : Prog AuthResponse :=
  try_catch
    (let email := si_email data in
     let password := si_password data in
     r <- await (auth_signInWithPassword email password) ;;
     match auth_error r with
     | Some authError =>
         print (console_error "Sign in error:" (Some authError)) ;;
         Ret (failed authError)
     | None =>
         match data_user r with
         | None => Throw TypeError_reading_id       (* authData.user.id *)
         | Some u =>
             userWithProfile <- getUserWithProfile (user_id u) ;;
             Ret {| resp_user := userWithProfile;
                    resp_session := data_session r;
                    resp_error := None |}
         end
     end)
    (fun error =>
       print (console_error "Unexpected sign in error:" (Some error)) ;;
       Ret (failed error)).

Definition signOut : Prog (option JsError) :=
  try_catch
    (error <- await auth_signOut ;;
     match error with
     | Some e => print (console_error "Sign out error:" (Some e)) ;; Ret (Some e)
     | None => Ret None
     end)
    (fun error =>
       print (console_error "Unexpected sign out error:" (Some error)) ;;
       Ret (Some error)).

Definition getCurrentSession : Prog SessionResponse :=
  try_catch
    (r <- await auth_getSession ;;
     match sr_error r with
     | Some e =>
         print (console_error "Get session error:" (Some e)) ;;
         Ret {| sr_session := None; sr_error := Some e |}
     | None => Ret {| sr_session := sr_session r; sr_error := None |}
     end)
    (fun error =>
       print (console_error "Unexpected get session error:" (Some error)) ;;
       Ret {| sr_session := None; sr_error := Some error |}).

Definition getCurrentUser : Prog (option AuthUser) :=
  try_catch
    (r <- await auth_getUser ;;
     match got_error r, got_user r with
     | None, Some u => getUserWithProfile (user_id u)
     | _, _ =>
         print (console_error "Get user error:" (got_error r)) ;;
         Ret None
     end)
    (fun error =>
       print (console_error "Unexpected get user error:" (Some error)) ;;
       Ret None).

Definition No_authenticated_user : JsError :=
  {| err_name := "Error"; err_message := "No authenticated user" |}.

(** [{ ...updates, updated_at: new Date().toISOString() }] *)
Definition update_values (updates : ProfileUpdates) (now : timestamptz)
    : Pg.UpdateValues :=
  {| Pg.set_id := None;
     Pg.set_email := None;
     Pg.set_full_name := option_map Some (upd_full_name updates);
     Pg.set_avatar_url := option_map Some (upd_avatar_url updates);
     Pg.set_role := None;
     Pg.set_created_at := None;
     Pg.set_updated_at := Some now |}.

Definition updateProfile (updates : ProfileUpdates) : Prog (option JsError) :=
  try_catch
    (u <- getCurrentUser ;;
     match u with
     | None => Ret (Some No_authenticated_user)
     | Some u =>
         now <- await Date_now ;;
         error <- await (profiles_update (update_values updates now)
                           (user_id (base u))) ;;
         match error with
         | Some e =>
             print (console_error "Profile update error:" (Some e)) ;;
             Ret (Some e)
         | None => Ret None
         end
     end)
    (fun error =>
       print (console_error "Unexpected profile update error:" (Some error)) ;;
       Ret (Some error)).

Definition resetPassword (email : string) : Prog (option JsError) :=
  try_catch
    (origin <- await window_location_origin ;;
     error <- await (auth_resetPasswordForEmail email
                       (origin ++ "/reset-password")%string) ;;
     match error with
     | Some e => print (console_error "Password reset error:" (Some e)) ;; Ret (Some e)
     | None => Ret None
     end)
    (fun error =>
       print (console_error "Unexpected password reset error:" (Some error)) ;;
       Ret (Some error)).

Definition updatePassword (newPassword : string) : Prog (option JsError) :=
  try_catch
    (error <- await (auth_updateUser newPassword) ;;
     match error with
     | Some e => print (console_error "Password update error:" (Some e)) ;; Ret (Some e)
     | None => Ret None
     end)
    (fun error =>
       print (console_error "Unexpected password update error:" (Some error)) ;;
       Ret (Some error)).

(** [user?.profile?.role === role || false] *)
Definition role_is (u : option AuthUser) (role : user_role) : bool :=
  match u with
  | Some au =>
      match profile au with
      | Some p => user_role_eqb (p_role p) role
      | None => false
      end
  | None => false
  end.

Definition hasRole (role : user_role) : Prog bool :=
  try_catch
    (u <- getCurrentUser ;;
     Ret (role_is u role))
    (fun error =>
       print (console_error "Role check error:" (Some error)) ;;
       Ret false).

Definition isAdmin : Prog bool := hasRole admin.

End AuthService.

(** ** The AuthProvider session context *)
Module AuthProvider.

(** The four [useState] cells. *)
Record State : Set := {
  st_user : option AuthUser;
  st_session : option Session;
  loading : bool;
  isAdmin : bool
}.

Definition initial : State :=
  {| st_user := None; st_session := None; loading := true; isAdmin := false |}.

(** A function of the component: it reads and writes the cells, awaits
    service calls, and its promise is fulfilled or rejected. *)
Definition Act (A : Type) : Type := State -> Prog (Settled A * State).

Definition ret {A : Type} (a : A) : Act A := fun c => Ret (Fulfilled a, c).
Definition throw {A : Type} (e : JsError) : Act A := fun c => Ret (Rejected e, c).

Definition abind {A B : Type} (m : Act A) (f : A -> Act B) : Act B :=
  fun c =>
    bind (m c) (fun r =>
      match r with
      | (Fulfilled a, c') => f a c'
      | (Rejected e, c') => Ret (Rejected e, c')
      end).

Definition try_ {A : Type} (m : Act A) (h : JsError -> Act A) : Act A :=
  fun c =>
    bind (m c) (fun r =>
      match r with
      | (Fulfilled a, c') => Ret (Fulfilled a, c')
      | (Rejected e, c') => h e c'
      end).

(** [try { m } finally { f }] *)
Definition finally {A : Type} (m : Act A) (f : Act unit) : Act A :=
  fun c =>
    bind (m c) (fun r =>
      bind (f (snd r)) (fun r' =>
        match fst r' with
        | Fulfilled _ => Ret (fst r, snd r')
        | Rejected e => Ret (Rejected e, snd r')
        end)).

(** [await] of a service call. *)
Definition lift {A : Type} (p : Prog A) : Act A :=
  fun c =>
    try_catch (bind p (fun a => Ret (Fulfilled a, c)))
              (fun e => Ret (Rejected e, c)).

Definition setUser (u : option AuthUser) : Act unit :=
  fun c => Ret (Fulfilled tt,
                {| st_user := u; st_session := st_session c;
                   loading := loading c; isAdmin := isAdmin c |}).
Definition setSession (s : option Session) : Act unit :=
  fun c => Ret (Fulfilled tt,
                {| st_user := st_user c; st_session := s;
                   loading := loading c; isAdmin := isAdmin c |}).
Definition setLoading (b : bool) : Act unit :=
  fun c => Ret (Fulfilled tt,
                {| st_user := st_user c; st_session := st_session c;
                   loading := b; isAdmin := isAdmin c |}).
Definition setIsAdmin (b : bool) : Act unit :=
  fun c => Ret (Fulfilled tt,
                {| st_user := st_user c; st_session := st_session c;
                   loading := loading c; isAdmin := b |}).

Declare Scope act_scope.
Delimit Scope act_scope with act.
Notation "x <- p ;; q" := (abind p (fun x => q))
  (at level 61, p at next level, right associativity) : act_scope.
Notation "p ;; q" := (abind p (fun _ => q))
  (at level 61, right associativity) : act_scope.
Local Open Scope act_scope.

(** [session?.user?.email] *)
Definition session_email (session : option Session) : option string :=
  match session with
  | Some s => user_email (session_user s)
  | None => None
  end.

Definition initializeAuth : Act unit :=
  finally
    (try_
       (r <- lift AuthService.getCurrentSession ;;
        let session := sr_session r in
        setSession session ;;
        match session with
        | Some _ =>
            userWithProfile <- lift AuthService.getCurrentUser ;;
            setUser userWithProfile ;;
            setIsAdmin (AuthService.role_is userWithProfile admin)
        | None =>
            setUser None ;;
            setIsAdmin false
        end)
       (fun error =>
          lift (print (console_error "Auth initialization error:" (Some error))) ;;
          setUser None ;;
          setSession None ;;
          setIsAdmin false))
    (setLoading false).

(** The callback given to [AuthService.onAuthStateChange]. *)
Definition onAuthStateChange (event : string) (session : option Session)
    : Act unit :=
  lift (print (console_log "Auth state changed:" event (session_email session))) ;;
  setSession session ;;
  match session with
  | Some _ =>
      userWithProfile <- lift AuthService.getCurrentUser ;;
      setUser userWithProfile ;;
      setIsAdmin (AuthService.role_is userWithProfile admin)
  | None =>
      setUser None ;;
      setIsAdmin false
  end ;;
  setLoading false.

Definition signIn (email password : string) : Act unit :=
  setLoading true ;;
  try_
    (r <- lift (AuthService.signIn {| si_email := email; si_password := password |}) ;;
     match resp_error r with
     | Some error => throw error
     | None => ret tt
     end)
    (fun error => setLoading false ;; throw error).

Definition signUp (email password : string) (fullName : option string)
    : Act unit :=
  setLoading true ;;
  try_
    (r <- lift (AuthService.signUp
                  {| su_email := email;
                     su_password := password;
                     su_fullName := fullName;
                     su_role := Some user |}) ;;
     match resp_error r with
     | Some error => throw error
     | None => ret tt
     end)
    (fun error => setLoading false ;; throw error).

Definition signOut : Act unit :=
  setLoading true ;;
  try_
    (error <- lift AuthService.signOut ;;
     match error with
     | Some error => throw error
     | None => ret tt
     end)
    (fun error => setLoading false ;; throw error).

Definition updateProfile (updates : ProfileUpdates) : Act unit :=
  try_
    (error <- lift (AuthService.updateProfile updates) ;;
     match error with
     | Some error => throw error
     | None =>
         updatedUser <- lift AuthService.getCurrentUser ;;
         setUser updatedUser
     end)
    (fun error => throw error).

Definition resetPassword (email : string) : Act unit :=
  try_
    (error <- lift (AuthService.resetPassword email) ;;
     match error with
     | Some error => throw error
     | None => ret tt
     end)
    (fun error => throw error).

Definition hasRole (c : State) (role : user_role) : bool :=
  AuthService.role_is (st_user c) role.

End AuthProvider.

(** ** Running a program against the SDK *)

(** What the environment saw of a run. *)
Inductive Event : Type :=
| EvCall (X : Type) (op : Op X) (r : Settled X)
| EvConsole (c : Console).

Definition Handler (W : Type) : Type := forall X : Type, Op X -> W -> Settled X * W.

Record Run (W A : Type) : Type := {
  outcome : Settled A;
  after : W;
  trace : list Event
}.

Fixpoint exec {W A : Type} (h : Handler W) (p : Prog A) (w : W) : Run W A :=
  match p with
  | Ret a => {| outcome := Fulfilled a; after := w; trace := [] |}
  | Throw e => {| outcome := Rejected e; after := w; trace := [] |}
  | Call op k =>
      let r := exec h (k (fst (h _ op w))) (snd (h _ op w)) in
      {| outcome := outcome r; after := after r;
         trace := EvCall op (fst (h _ op w)) :: trace r |}
  | Print c k =>
      let r := exec h k w in
      {| outcome := outcome r; after := after r;
         trace := EvConsole c :: trace r |}
  end.

(** *** Observations on traces *)

(** The [error] a settled call carries, if any. *)
Definition reply_error {X : Type} (op : Op X) : X -> option JsError :=
  match op in Op X return X -> option JsError with
  | auth_signUp _ _ _ => auth_error
  | auth_signInWithPassword _ _ => auth_error
  | auth_signOut => fun e => e
  | auth_getSession => sr_error
  | auth_getUser => got_error
  | auth_updateUser _ => fun e => e
  | auth_resetPasswordForEmail _ _ => fun e => e
  | profiles_insert _ => fun e => e
  | profiles_select_single _ => single_error
  | profiles_update _ _ => fun e => e
  | Date_now => fun _ => None
  | window_location_origin => fun _ => None
  end.

Definition call_failed {X : Type} (op : Op X) (r : Settled X) : bool :=
  match r with
  | Rejected _ => true
  | Fulfilled x => match reply_error op x with Some _ => true | None => false end
  end.

Definition is_call (ev : Event) : bool :=
  match ev with EvCall _ _ => true | EvConsole _ => false end.

Definition is_table_write (ev : Event) : bool :=
  match ev with
  | EvCall op _ =>
      match op with
      | profiles_insert _ | profiles_update _ _ => true
      | _ => false
      end
  | EvConsole _ => false
  end.

(** No SDK call follows one that failed. *)
Fixpoint stops_at_failure (tr : list Event) : bool :=
  match tr with
  | [] => true
  | EvCall op r :: rest =>
      (if call_failed op r then negb (existsb is_call rest) else true)
      && stops_at_failure rest
  | EvConsole _ :: rest => stops_at_failure rest
  end.

(** The SDK function a call goes to. *)
Definition op_name {X : Type} (op : Op X) : string :=
  match op with
  | auth_signUp _ _ _ => "auth.signUp"
  | auth_signInWithPassword _ _ => "auth.signInWithPassword"
  | auth_signOut => "auth.signOut"
  | auth_getSession => "auth.getSession"
  | auth_getUser => "auth.getUser"
  | auth_updateUser _ => "auth.updateUser"
  | auth_resetPasswordForEmail _ _ => "auth.resetPasswordForEmail"
  | profiles_insert _ => "profiles.insert"
  | profiles_select_single _ => "profiles.select"
  | profiles_update _ _ => "profiles.update"
  | Date_now => "Date"
  | window_location_origin => "window.location.origin"
  end.

Definition calls_of (name : string) (ev : Event) : bool :=
  match ev with
  | EvCall op _ => op_name op =? name
  | EvConsole _ => false
  end.

(** No SDK function is called again after a call to it failed. *)
Fixpoint no_retry (tr : list Event) : bool :=
  match tr with
  | [] => true
  | EvCall op r :: rest =>
      (if call_failed op r then negb (existsb (calls_of (op_name op)) rest) else true)
      && no_retry rest
  | EvConsole _ :: rest => no_retry rest
  end.

(** The error of the first failed call to the SDK function [name]. *)
Fixpoint failure_of (name : string) (tr : list Event) : option JsError :=
  match tr with
  | [] => None
  | EvCall op r :: rest =>
      if (op_name op =? name) && call_failed op r then
        match r with
        | Rejected e => Some e
        | Fulfilled x => reply_error op x
        end
      else failure_of name rest
  | EvConsole _ :: rest => failure_of name rest
  end.

(** The [role] a call hands to the provider, if it hands one. *)
Definition role_sent (ev : Event) : option (option string) :=
  match ev with
  | EvCall op _ =>
      match op with
      | auth_signUp _ _ data => Some (meta_role data)
      | profiles_insert values => Some (Some (role_text (Pg.v_role values)))
      | _ => None
      end
  | EvConsole _ => None
  end.

Definition console_of (tr : list Event) : list Console :=
  flat_map (fun ev => match ev with EvConsole c => [c] | EvCall _ _ => [] end) tr.

(** ** The hosted backend, as one handler

    The provider's own code is not part of the repository.  This handler
    fixes the reading of it that the rest of the development is stated
    against: the auth calls keep [auth.users] and the client's session, the
    table calls run the statements of [Pg] under the caller's role, and every
    reading of a clock, of the random source and of the network is a field of
    the world, which the environment may change between calls. *)
Module Supabase.

Record World : Set := {
  db : Pg.Database;
  session : option Session;        (* the session the SDK holds *)
  online : bool;                   (* whether requests reach the backend *)
  NOW : timestamptz;               (* NOW() of the next transaction *)
  client_clock : timestamptz;      (* new Date() *)
  origin : string;                 (* window.location.origin *)
  uuids : list uuid;               (* the next draws of gen_random_uuid() *)
  autoconfirm : bool;              (* sign-up opens a session at once *)
  emitted : list (string * option Session)   (* auth state change events *)
}.

Definition with_db (d : Pg.Database) (w : World) : World :=
  {| db := d; session := session w; online := online w; NOW := NOW w;
     client_clock := client_clock w; origin := origin w; uuids := uuids w;
     autoconfirm := autoconfirm w; emitted := emitted w |}.

Definition with_uuids (l : list uuid) (w : World) : World :=
  {| db := db w; session := session w; online := online w; NOW := NOW w;
     client_clock := client_clock w; origin := origin w; uuids := l;
     autoconfirm := autoconfirm w; emitted := emitted w |}.

(** The session changes and the subscribers are told. *)
Definition auth_state_change (event : string) (s : option Session) (w : World)
    : World :=
  {| db := db w; session := s; online := online w; NOW := NOW w;
     client_clock := client_clock w; origin := origin w; uuids := uuids w;
     autoconfirm := autoconfirm w;
     emitted := emitted w ++ [(event, s)] |}.

Definition fresh (rows : Pg.Database) : World :=
  {| db := rows; session := None; online := true; NOW := 0%Z;
     client_clock := 0%Z; origin := "http://localhost"; uuids := [];
     autoconfirm := true; emitted := [] |}.

Definition auth_api_error (msg : string) : JsError :=
  {| err_name := "AuthApiError"; err_message := msg |}.
Definition fetch_error : JsError :=
  {| err_name := "AuthRetryableFetchError"; err_message := "Failed to fetch" |}.
Definition session_missing : JsError :=
  {| err_name := "AuthSessionMissingError"; err_message := "Auth session missing!" |}.

Definition sqlstate (e : Pg.PgError) : string :=
  match e with
  | Pg.not_null_violation => "23502"
  | Pg.foreign_key_violation => "23503"
  | Pg.unique_violation => "23505"
  | Pg.invalid_text_representation => "22P02"
  | Pg.insufficient_privilege => "42501"
  | Pg.infinite_recursion => "42P17"
  end.

Definition postgrest_error (e : Pg.PgError) : JsError :=
  {| err_name := sqlstate e; err_message := "PostgrestError" |}.
(** [.single()] on a result that is not exactly one row *)
Definition PGRST116 : JsError :=
  {| err_name := "PGRST116";
     err_message := "JSON object requested, multiple (or no) rows returned" |}.

Definition no_auth (e : JsError) : AuthReply :=
  {| data_user := None; data_session := None; auth_error := Some e |}.

Definition user_of (r : Pg.UsersRow) : User :=
  {| user_id := Pg.u_id r; user_email := Pg.u_email r |}.

Definition has_email (email : string) (r : Pg.UsersRow) : bool :=
  match Pg.u_email r with
  | Some e => e =? email
  | None => false
  end.

(** The role a request of the client runs under: the JWT of the session,
    or the anonymous key. *)
Definition caller (w : World) : Pg.DbRole :=
  match session w with
  | Some s => Pg.authenticated (user_id (session_user s))
  | None => Pg.anon
  end.

Definition columns (r : Pg.Row) : Profile :=
  {| p_full_name := Pg.full_name r;
     p_avatar_url := Pg.avatar_url r;
     p_role := Pg.role r |}.

Definition sign_up (email password : string) (data : UserMetadata) (w : World)
    : Settled AuthReply * World :=
  if existsb (has_email email) (Pg.auth_users (db w)) then
    (Fulfilled (no_auth (auth_api_error "User already registered")), w)
  else
    match uuids w with
    | [] => (Fulfilled (no_auth (auth_api_error "Database error saving new user")), w)
    | i :: rest =>
        let NEW := {| Pg.u_id := i; Pg.u_email := Some email;
                      Pg.u_password := password;
                      Pg.raw_user_meta_data := data |} in
        match Pg.insert_user (NOW w) (db w) NEW with
        | inl _ =>
            (Fulfilled (no_auth (auth_api_error "Database error saving new user")),
             with_uuids rest w)
        | inr d =>
            let w1 := with_db d (with_uuids rest w) in
            if autoconfirm w then
              let s := {| access_token := i; session_user := user_of NEW |} in
              (Fulfilled {| data_user := Some (user_of NEW);
                            data_session := Some s;
                            auth_error := None |},
               auth_state_change "SIGNED_IN" (Some s) w1)
            else
              (Fulfilled {| data_user := Some (user_of NEW);
                            data_session := None;
                            auth_error := None |},
               w1)
        end
    end.

Definition sign_in (email password : string) (w : World)
    : Settled AuthReply * World :=
  match find (fun r => has_email email r && (Pg.u_password r =? password))
             (Pg.auth_users (db w)) with
  | Some r =>
      let s := {| access_token := Pg.u_id r; session_user := user_of r |} in
      (Fulfilled {| data_user := Some (user_of r);
                    data_session := Some s;
                    auth_error := None |},
       auth_state_change "SIGNED_IN" (Some s) w)
  | None => (Fulfilled (no_auth (auth_api_error "Invalid login credentials")), w)
  end.

Definition get_user (w : World) : Settled UserReply * World :=
  match session w with
  | None => (Fulfilled {| got_user := None; got_error := Some session_missing |}, w)
  | Some s =>
      match find (fun r => Pg.u_id r =? user_id (session_user s))
                 (Pg.auth_users (db w)) with
      | Some r => (Fulfilled {| got_user := Some (user_of r); got_error := None |}, w)
      | None =>
          (Fulfilled {| got_user := None;
                        got_error := Some (auth_api_error
                          "User from sub claim in JWT does not exist") |}, w)
      end
  end.

Definition set_password (uid : uuid) (password : string) (r : Pg.UsersRow)
    : Pg.UsersRow :=
  if Pg.u_id r =? uid then
    {| Pg.u_id := Pg.u_id r; Pg.u_email := Pg.u_email r;
       Pg.u_password := password;
       Pg.raw_user_meta_data := Pg.raw_user_meta_data r |}
  else r.

Definition update_user (password : string) (w : World)
    : Settled (option JsError) * World :=
  match session w with
  | None => (Fulfilled (Some session_missing), w)
  | Some s =>
      (Fulfilled None,
       with_db {| Pg.auth_users :=
                    map (set_password (user_id (session_user s)) password)
                        (Pg.auth_users (db w));
                  Pg.profiles := Pg.profiles (db w) |} w)
  end.

Definition insert (values : Pg.InsertValues) (w : World)
    : Settled (option JsError) * World :=
  match Pg.insert_profile (caller w) (NOW w) (db w) values with
  | inl e => (Fulfilled (Some (postgrest_error e)), w)
  | inr d => (Fulfilled None, with_db d w)
  end.

Definition select_single (eq_id : uuid) (w : World)
    : Settled SingleReply * World :=
  match Pg.select_profiles (caller w) (db w) (fun r => Pg.id r =? eq_id) with
  | inl e =>
      (Fulfilled {| single_data := None;
                    single_error := Some (postgrest_error e) |}, w)
  | inr [r] =>
      (Fulfilled {| single_data := Some (columns r); single_error := None |}, w)
  | inr _ => (Fulfilled {| single_data := None; single_error := Some PGRST116 |}, w)
  end.

Definition update (values : Pg.UpdateValues) (eq_id : uuid) (w : World)
    : Settled (option JsError) * World :=
  match Pg.update_profiles (caller w) (NOW w) (db w)
          (fun r => Pg.id r =? eq_id) values with
  | inl e => (Fulfilled (Some (postgrest_error e)), w)
  | inr d => (Fulfilled None, with_db d w)
  end.

(** What a call settles to when the request cannot be sent. *)
Definition unreachable {X : Type} (op : Op X) : option X :=
  match op in Op X return option X with
  | auth_signUp _ _ _ => Some (no_auth fetch_error)
  | auth_signInWithPassword _ _ => Some (no_auth fetch_error)
  | auth_signOut => Some (Some fetch_error)
  | auth_getSession => None
  | auth_getUser => Some {| got_user := None; got_error := Some fetch_error |}
  | auth_updateUser _ => Some (Some fetch_error)
  | auth_resetPasswordForEmail _ _ => Some (Some fetch_error)
  | profiles_insert _ => Some (Some fetch_error)
  | profiles_select_single _ =>
      Some {| single_data := None; single_error := Some fetch_error |}
  | profiles_update _ _ => Some (Some fetch_error)
  | Date_now => None
  | window_location_origin => None
  end.

Definition reach {X : Type} (op : Op X) : World -> Settled X * World :=
  match op in Op X return World -> Settled X * World with
  | auth_signUp email password data => sign_up email password data
  | auth_signInWithPassword email password => sign_in email password
  | auth_signOut => fun w => (Fulfilled None, auth_state_change "SIGNED_OUT" None w)
  | auth_getSession =>
      fun w => (Fulfilled {| sr_session := session w; sr_error := None |}, w)
  | auth_getUser => get_user
  | auth_updateUser password => update_user password
  | auth_resetPasswordForEmail _ _ => fun w => (Fulfilled None, w)
  | profiles_insert values => insert values
  | profiles_select_single eq_id => select_single eq_id
  | profiles_update values eq_id => update values eq_id
  | Date_now => fun w => (Fulfilled (client_clock w), w)
  | window_location_origin => fun w => (Fulfilled (origin w), w)
  end.

Definition handle : Handler World :=
  fun X op w =>
    match unreachable op with
    | Some r => if online w then reach op w else (Fulfilled r, w)
    | None => reach op w
    end.

(** *** What can happen to a world *)
Inductive step : World -> World -> Prop :=
| step_call (X : Type) (op : Op X) (w : World) :
    step w (snd (handle op w))
| step_environment (w w' : World) :
    db w' = db w -> step w w'
| step_delete_user (w : World) (uid : uuid) :
    step w (with_db (Pg.delete_user (db w) uid) w).

(** The migration creates [profiles] empty, next to whatever users the
    project already has. *)
Inductive reachable : World -> Prop :=
| reach_init (w : World) :
    Pg.profiles (db w) = [] ->
    Pg.distinct (Pg.user_ids (Pg.auth_users (db w))) = true ->
    reachable w
| reach_step (w w' : World) : reachable w -> step w w' -> reachable w'.

End Supabase.

(** ** The operations of the service, as one family *)

Inductive ServiceCall : Set :=
| call_signUp (data : SignUpData)
| call_signIn (data : SignInData)
| call_signOut
| call_getCurrentSession
| call_getCurrentUser
| call_getUserWithProfile (userId : string)
| call_updateProfile (updates : ProfileUpdates)
| call_resetPassword (email : string)
| call_updatePassword (newPassword : string)
| call_hasRole (role : user_role)
| call_isAdmin.

(** What the promise of an operation resolves to. *)
Inductive Returned : Set :=
| ret_auth (r : AuthResponse)
| ret_session (r : SessionResponse)
| ret_error (error : option JsError)
| ret_user (u : option AuthUser)
| ret_bool (b : bool).

Definition invoke (c : ServiceCall) : Prog Returned :=
  match c with
  | call_signUp data => r <- AuthService.signUp data ;; Ret (ret_auth r)
  | call_signIn data => r <- AuthService.signIn data ;; Ret (ret_auth r)
  | call_signOut => r <- AuthService.signOut ;; Ret (ret_error r)
  | call_getCurrentSession => r <- AuthService.getCurrentSession ;; Ret (ret_session r)
  | call_getCurrentUser => r <- AuthService.getCurrentUser ;; Ret (ret_user r)
  | call_getUserWithProfile userId =>
      r <- AuthService.getUserWithProfile userId ;; Ret (ret_user r)
  | call_updateProfile updates =>
      r <- AuthService.updateProfile updates ;; Ret (ret_error r)
  | call_resetPassword email => r <- AuthService.resetPassword email ;; Ret (ret_error r)
  | call_updatePassword newPassword =>
      r <- AuthService.updatePassword newPassword ;; Ret (ret_error r)
  | call_hasRole role => r <- AuthService.hasRole role ;; Ret (ret_bool r)
  | call_isAdmin => r <- AuthService.isAdmin ;; Ret (ret_bool r)
  end.

(** The error object inside a result, where the result has a place for one. *)
Definition error_of (r : Returned) : option JsError :=
  match r with
  | ret_auth a => resp_error a
  | ret_session s => sr_error s
  | ret_error e => e
  | ret_user _ => None
  | ret_bool _ => None
  end.

(** The operations whose result type has an [error] field. *)
Definition reports_errors (c : ServiceCall) : bool :=
  match c with
  | call_signUp _ | call_signIn _ | call_signOut | call_getCurrentSession
  | call_updateProfile _ | call_resetPassword _ | call_updatePassword _ => true
  | call_getCurrentUser | call_getUserWithProfile _ | call_hasRole _
  | call_isAdmin => false
  end.

(** The SDK function whose error an operation hands on to its caller. *)
Definition primary (c : ServiceCall) : option string :=
  match c with
  | call_signUp _ => Some "auth.signUp"
  | call_signIn _ => Some "auth.signInWithPassword"
  | call_signOut => Some "auth.signOut"
  | call_getCurrentSession => Some "auth.getSession"
  | call_updateProfile _ => Some "profiles.update"
  | call_resetPassword _ => Some "auth.resetPasswordForEmail"
  | call_updatePassword _ => Some "auth.updateUser"
  | call_getCurrentUser | call_getUserWithProfile _ | call_hasRole _
  | call_isAdmin => None
  end.

(** What the operations without an [error] field resolve to when they have
    nothing to give. *)
Definition nothing (r : Returned) : bool :=
  match r with
  | ret_user None => true
  | ret_bool false => true
  | _ => false
  end.

(** ** Notions the statements use *)

(** The row the trigger writes for a sign-up that drew the identifier [i]. *)
Definition trigger_row (d : SignUpData) (i : uuid) (now : timestamptz) : Pg.Row :=
  {| Pg.id := i; Pg.email := su_email d;
     Pg.full_name := Some (Pg.coalesce (su_fullName d) "");
     Pg.avatar_url := None;
     Pg.role := Pg.coalesce (su_role d) user;
     Pg.created_at := now; Pg.updated_at := now |}.

(** The row of [auth.users] for it. *)
Definition users_row (d : SignUpData) (i : uuid) : Pg.UsersRow :=
  {| Pg.u_id := i; Pg.u_email := Some (su_email d);
     Pg.u_password := su_password d;
     Pg.raw_user_meta_data :=
       {| meta_full_name := su_fullName d;
          meta_role := Some (role_text (Pg.coalesce (su_role d) user)) |} |}.

(** The user object the provider returns for it. *)
Definition signed_up (d : SignUpData) (i : uuid) : User :=
  {| user_id := i; user_email := Some (su_email d) |}.

(** The error the table calls of a signed-in client come back with:
    "infinite recursion detected in policy for relation profiles". *)
Definition refused : JsError := Supabase.postgrest_error Pg.infinite_recursion.

(** ** Sample data *)
Module Sample.

Definition alice : SignUpData :=
  {| su_email := "a@x.com"; su_password := "secret1";
     su_fullName := Some "Alice"; su_role := None |}.

(** An empty project whose next random identifier is [u1]. *)
Definition empty_project : Supabase.World :=
  Supabase.with_uuids ["u1"] (Supabase.fresh Pg.empty).

(** The project once [alice] has signed up: she has her row and is
    signed in. *)
Definition alice_in : Supabase.World :=
  after (exec Supabase.handle (AuthService.signUp alice) empty_project).

Definition alice_user : User :=
  {| user_id := "u1"; user_email := Some "a@x.com" |}.

Definition alice_session : Session :=
  {| access_token := "u1"; session_user := alice_user |}.

Definition alice_row (name : option string) (updated : timestamptz) : Pg.Row :=
  {| Pg.id := "u1"; Pg.email := "a@x.com"; Pg.full_name := name;
     Pg.avatar_url := None; Pg.role := user;
     Pg.created_at := 0%Z; Pg.updated_at := updated |}.

Definition bob_row : Pg.Row :=
  {| Pg.id := "u2"; Pg.email := "b@x.com"; Pg.full_name := Some "Bob";
     Pg.avatar_url := None; Pg.role := admin;
     Pg.created_at := 0%Z; Pg.updated_at := 0%Z |}.

Definition users_table : list Pg.UsersRow :=
  [{| Pg.u_id := "u1"; Pg.u_email := Some "a@x.com"; Pg.u_password := "secret1";
      Pg.raw_user_meta_data :=
        {| meta_full_name := Some "Alice"; meta_role := Some "user" |} |};
   {| Pg.u_id := "u2"; Pg.u_email := Some "b@x.com"; Pg.u_password := "secret2";
      Pg.raw_user_meta_data :=
        {| meta_full_name := Some "Bob"; meta_role := Some "admin" |} |}].

(** [alice], a plain user, and [bob], an admin. *)
Definition two_users : Pg.Database :=
  {| Pg.auth_users := users_table;
     Pg.profiles := [alice_row (Some "Alice") 0%Z; bob_row] |}.

(** [alice]'s row was last written at 100, and the transaction about to
    run reads NOW() = 100, while the clock of her browser reads 999. *)
Definition same_instant : Supabase.World :=
  {| Supabase.db :=
       {| Pg.auth_users := users_table;
          Pg.profiles := [alice_row (Some "Alice") 100%Z; bob_row] |};
     Supabase.session := Some alice_session;
     Supabase.online := true;
     Supabase.NOW := 100%Z;
     Supabase.client_clock := 999%Z;
     Supabase.origin := "http://localhost";
     Supabase.uuids := [];
     Supabase.autoconfirm := true;
     Supabase.emitted := [] |}.

(** A project whose user signed up before the migration was applied:
    [profiles] starts empty. *)
Definition before_migration : Supabase.World :=
  Supabase.fresh
    {| Pg.auth_users :=
         [{| Pg.u_id := "u0"; Pg.u_email := Some "old@x.com";
             Pg.u_password := "hunter2";
             Pg.raw_user_meta_data :=
               {| meta_full_name := None; meta_role := None |} |}];
       Pg.profiles := [] |}.

Definition old_user : SignInData :=
  {| si_email := "old@x.com"; si_password := "hunter2" |}.

Definition rename : ProfileUpdates :=
  {| upd_full_name := Some "Alice B"; upd_avatar_url := None |}.

End Sample.


(** ** Further notions and samples *)

(** The profile insert of signUp. *)
Definition is_insert (ev : Event) : bool :=
  match ev with
  | EvCall op _ =>
      match op with
      | profiles_insert _ => true
      | _ => false
      end
  | EvConsole _ => false
  end.

(** The operations that only read. *)
Definition read_only (c : ServiceCall) : bool :=
  match c with
  | call_signUp _ | call_updateProfile _ => false
  | _ => true
  end.

(** The cells with [loading] set to [b], respectively [user] set to [u]. *)
Definition loading_set (b : bool) (c : AuthProvider.State) : AuthProvider.State :=
  {| AuthProvider.st_user := AuthProvider.st_user c;
     AuthProvider.st_session := AuthProvider.st_session c;
     AuthProvider.loading := b;
     AuthProvider.isAdmin := AuthProvider.isAdmin c |}.

Definition user_set (u : option AuthUser) (c : AuthProvider.State)
    : AuthProvider.State :=
  {| AuthProvider.st_user := u;
     AuthProvider.st_session := AuthProvider.st_session c;
     AuthProvider.loading := AuthProvider.loading c;
     AuthProvider.isAdmin := AuthProvider.isAdmin c |}.

(** How a mutating function of the context settles, given the [error] the
    service call resolved to: it rejects with that error and clears
    [loading], or resolves and leaves [loading] set. *)
Definition settles (error : option JsError) (c : AuthProvider.State)
    : Settled unit * AuthProvider.State :=
  match error with
  | Some e => (Rejected e, loading_set false c)
  | None => (Fulfilled tt, loading_set true c)
  end.

Module Sample2.

(** The database of [Sample.before_migration]: one user, no profile. *)
Definition old_db : Pg.Database := Supabase.db Sample.before_migration.

(** The row that user may create for itself. *)
Definition old_values : Pg.InsertValues :=
  {| Pg.v_id := "u0"; Pg.v_email := Some "old@x.com";
     Pg.v_full_name := None; Pg.v_role := user |}.

Definition alice_response : AuthResponse :=
  {| resp_user := Some (as_AuthUser Sample.alice_user);
     resp_session := Some Sample.alice_session;
     resp_error := None |}.

Definition alice_users_row : Pg.UsersRow :=
  {| Pg.u_id := "u1"; Pg.u_email := Some "a@x.com"; Pg.u_password := "secret1";
     Pg.raw_user_meta_data :=
       {| meta_full_name := Some "Alice"; meta_role := Some "user" |} |}.

End Sample2.
(** * Properties *)

Section AnySdk.

Variable W : Type.
Variable h : Handler W.

Lemma exec_try_catch (A : Type) (p : Prog A) (hd : JsError -> Prog A) (w : W) :
  exec h (try_catch p hd) w =
  match outcome (exec h p w) with
  | Fulfilled a => exec h p w
  | Rejected e =>
      let r := exec h (hd e) (after (exec h p w)) in
      {| outcome := outcome r; after := after r;
         trace := trace (exec h p w) ++ trace r |}
  end.
Proof.
  revert w; induction p as [a|e|X op k IH|c k IH]; intro w; simpl.
  - reflexivity.
  - destruct (exec h (hd e) w); reflexivity.
  - rewrite IH. destruct (outcome (exec h (k _) _)) eqn:E; [|reflexivity].
    rewrite <- E; reflexivity.
  - rewrite IH. destruct (outcome (exec h k w)) eqn:E; [|reflexivity].
    rewrite <- E; reflexivity.
Qed.

Lemma exec_bind (A B : Type) (p : Prog A) (f : A -> Prog B) (w : W) :
  exec h (bind p f) w =
  match outcome (exec h p w) with
  | Fulfilled a =>
      let r := exec h (f a) (after (exec h p w)) in
      {| outcome := outcome r; after := after r;
         trace := trace (exec h p w) ++ trace r |}
  | Rejected e =>
      {| outcome := Rejected e; after := after (exec h p w);
         trace := trace (exec h p w) |}
  end.
Proof.
  revert w; induction p as [a|e|X op k IH|c k IH]; intro w; simpl.
  - destruct (exec h (f a) w); reflexivity.
  - reflexivity.
  - rewrite IH. destruct (outcome (exec h (k _) _)); reflexivity.
  - rewrite IH. destruct (outcome (exec h k w)); reflexivity.
Qed.


(** One awaited call at a time: name what the handler answers. *)
Ltac answer :=
  match goal with
  | |- context [@h ?X ?op ?w] =>
      let x := fresh "x" in
      let e := fresh "e" in
      let w' := fresh "w" in
      let E := fresh "E" in
      destruct (@h X op w) as [[x|e] w'] eqn:E; simpl
  end.

(** C1. When the provider's sign-up answers with a user and no error, and
    the insert into [profiles] that follows answers with an error, signUp
    writes that error to the console and resolves to the created user and
    the session with [error = null]; nothing else is called. *)
Theorem signUp_keeps_user_when_profile_insert_fails
    (d : SignUpData) (w w1 w2 : W) (u : User) (s : option Session)
    (e : JsError) :
  let role := Pg.coalesce (su_role d) user in
  h (auth_signUp (su_email d) (su_password d)
       {| meta_full_name := su_fullName d;
          meta_role := Some (role_text role) |}) w
    = (Fulfilled {| data_user := Some u; data_session := s;
                    auth_error := None |}, w1) ->
  h (profiles_insert
       {| Pg.v_id := user_id u; Pg.v_email := user_email u;
          Pg.v_full_name := AuthService.or_null (su_fullName d);
          Pg.v_role := role |}) w1
    = (Fulfilled (Some e), w2) ->
  let r := exec h (AuthService.signUp d) w in
  outcome r = Fulfilled {| resp_user := Some (as_AuthUser u);
                           resp_session := s;
                           resp_error := None |}
  /\ console_of (trace r) = [console_error "Profile creation error:" (Some e)]
  /\ length (filter is_call (trace r)) = 2
  /\ after r = w2.
Proof.
  intros role H1 H2 r; subst r role.
  unfold AuthService.signUp; simpl.
  rewrite H1; simpl. rewrite H2; simpl.
  repeat split.
Qed.

(** C10. Whatever the caller passes to the context's signUp, and whatever
    the SDK answers, the first call is the provider's sign-up with
    [role: 'user'] in its metadata, and every call of the run that carries
    a role carries [user]. *)
Theorem context_signUp_always_sends_role_user
    (email password : string) (fullName : option string)
    (c : AuthProvider.State) (w : W) :
  let r := exec h (AuthProvider.signUp email password fullName c) w in
  (exists answer rest,
      trace r = EvCall (auth_signUp email password
                          {| meta_full_name := fullName;
                             meta_role := Some "user" |}) answer :: rest)
  /\ (forall ev sent, In ev (trace r) -> role_sent ev = Some sent ->
       sent = Some "user").
Proof.
  intro r; subst r.
  unfold AuthProvider.signUp, AuthProvider.abind, AuthProvider.try_,
    AuthProvider.lift, AuthService.signUp; simpl.
  split.
  - eexists; eexists; reflexivity.
  - answer.
    + destruct (auth_error x); simpl.
      * intros ev sent [<-|[<-|[]]]; simpl; congruence.
      * destruct (data_user x); simpl.
        -- answer.
           ++ destruct x0; simpl;
                intros ev sent H; repeat destruct H as [<-|H];
                simpl; try congruence; try contradiction.
           ++ intros ev sent H; repeat destruct H as [<-|H];
                simpl; try congruence; try contradiction.
        -- intros ev sent [<-|[]]; simpl; congruence.
    + intros ev sent H; repeat destruct H as [<-|H];
        simpl; try congruence; try contradiction.
Qed.

(** The fetch of a user with its profile, answer by answer. *)
Lemma getUserWithProfile_attaches (userId : string) (w w1 w2 : W) (u : User)
    (s : SingleReply) :
  h auth_getUser w = (Fulfilled {| got_user := Some u; got_error := None |}, w1) ->
  h (profiles_select_single userId) w1 = (Fulfilled s, w2) ->
  single_error s = None ->
  exec h (AuthService.getUserWithProfile userId) w
  = {| outcome := Fulfilled (Some {| base := u; profile := single_data s |});
       after := w2;
       trace := [EvCall auth_getUser
                   (Fulfilled {| got_user := Some u; got_error := None |});
                 EvCall (profiles_select_single userId) (Fulfilled s)] |}.
Proof.
  intros H1 H2 H3. unfold AuthService.getUserWithProfile; simpl.
  rewrite H1; simpl. rewrite H2; simpl. rewrite H3; simpl. reflexivity.
Qed.

Lemma getUserWithProfile_falls_back (userId : string) (w w1 w2 : W) (u : User)
    (s : SingleReply) (e : JsError) :
  h auth_getUser w = (Fulfilled {| got_user := Some u; got_error := None |}, w1) ->
  h (profiles_select_single userId) w1 = (Fulfilled s, w2) ->
  single_error s = Some e ->
  exec h (AuthService.getUserWithProfile userId) w
  = {| outcome := Fulfilled (Some (as_AuthUser u));
       after := w2;
       trace := [EvCall auth_getUser
                   (Fulfilled {| got_user := Some u; got_error := None |});
                 EvCall (profiles_select_single userId) (Fulfilled s);
                 EvConsole (console_error "Profile fetch error:" (Some e))] |}.
Proof.
  intros H1 H2 H3. unfold AuthService.getUserWithProfile; simpl.
  rewrite H1; simpl. rewrite H2; simpl. rewrite H3; simpl. reflexivity.
Qed.

(** Follow a run through every answer the SDK may give. *)
Ltac branch :=
  match goal with
  | |- context [match ?x with _ => _ end] =>
      match x with
      | context [exec] => fail 1
      | _ => destruct x eqn:?
      end
  end.
Ltac follow := simpl; repeat (first [answer | branch]; simpl).

(** C9 (as amended). Every operation of the service resolves; none
    rejects.  signUp, signIn, signOut, getCurrentSession, resetPassword,
    updatePassword and updateProfile resolve to an object whose [error] is
    the error of their own provider call (for updateProfile, of the table
    update) whenever that call fails.  getCurrentUser, getUserWithProfile,
    hasRole and isAdmin have no [error] to give: when the user query fails
    they resolve to [null], respectively [false].  No SDK function is
    called again once a call to it has failed. *)
Theorem service_results_and_no_retry (c : ServiceCall) (w : W) :
  let r := exec h (invoke c) w in
  (exists v,
      outcome r = Fulfilled v
      /\ match primary c with
         | Some name =>
             forall e, failure_of name (trace r) = Some e -> error_of v = Some e
         | None =>
             error_of v = None
             /\ (failure_of "auth.getUser" (trace r) <> None -> nothing v = true)
         end)
  /\ no_retry (trace r) = true.
Proof.
  intro r; subst r.
  destruct c; unfold invoke, AuthService.isAdmin, AuthService.hasRole,
    AuthService.updateProfile, AuthService.getCurrentUser,
    AuthService.getUserWithProfile, AuthService.signUp, AuthService.signIn,
    AuthService.signOut, AuthService.getCurrentSession,
    AuthService.resetPassword, AuthService.updatePassword;
    follow;
    (split; [eexists; split; [reflexivity|]|reflexivity]);
    simpl; try (split; [reflexivity|]); try congruence;
    try (intros; congruence).
Qed.

(** C8 (as amended). After a sign-in the provider accepted, signIn asks
    for the user again and then for the profile row of the signed-in id,
    and resolves with [error = null] and the session in every case: with
    the user and the fetched profile attached when both queries answer
    without error; with the user alone, the error being logged, when the
    profile query answers with an error; with [user = null] when the user
    query fails. *)
Theorem signIn_attaches_fetched_profile (d : SignInData) (w w1 : W)
    (u : User) (s : option Session) :
  h (auth_signInWithPassword (si_email d) (si_password d)) w
    = (Fulfilled {| data_user := Some u; data_session := s;
                    auth_error := None |}, w1) ->
  let r := exec h (AuthService.signIn d) w in
  let again := h auth_getUser w1 in
  let fetched := h (profiles_select_single (user_id u)) (snd again) in
  exists v,
    outcome r = Fulfilled {| resp_user := v; resp_session := s;
                             resp_error := None |}
    /\ match fst again with
       | Fulfilled {| got_user := Some u'; got_error := None |} =>
           match fst fetched with
           | Fulfilled sel =>
               match single_error sel with
               | None => v = Some {| base := u'; profile := single_data sel |}
               | Some e =>
                   v = Some (as_AuthUser u')
                   /\ In (console_error "Profile fetch error:" (Some e))
                         (console_of (trace r))
               end
           | Rejected _ => v = None
           end
       | _ => v = None
       end.
Proof.
  intros H r again fetched; subst r again fetched.
  unfold AuthService.signIn, AuthService.getUserWithProfile; simpl.
  rewrite H; simpl.
  destruct (h auth_getUser w1) as [[[[u'|] [e|]]|e] w2]; simpl;
    try (eexists; split; reflexivity).
  destruct (h (profiles_select_single (user_id u)) w2) as [[[dat [e|]]|e] w3];
    simpl; eexists; (split; [reflexivity|]); simpl; auto.
Qed.

(** What every call keeps, a whole run keeps. *)
Lemma exec_invariant (P : W -> Prop) :
  (forall (X : Type) (op : Op X) (w : W), P w -> P (snd (h op w))) ->
  forall (A : Type) (p : Prog A) (w : W), P w -> P (after (exec h p w)).
Proof.
  intros Hstep A p; induction p as [a|e|X op k IH|c k IH]; intros w Hw; simpl.
  - exact Hw.
  - exact Hw.
  - apply IH, Hstep, Hw.
  - apply IH, Hw.
Qed.

End AnySdk.

(** ** The database *)
Module PgFacts.
Import Pg.

Lemma mem_In (s : string) (l : list string) : mem s l = true <-> In s l.
Proof.
  unfold mem; rewrite existsb_exists; split.
  - intros (x & Hin & Heq); apply String.eqb_eq in Heq; subst; exact Hin.
  - intro Hin; exists s; split; [exact Hin | apply String.eqb_refl].
Qed.

Lemma mem_false (s : string) (l : list string) : mem s l = false <-> ~ In s l.
Proof.
  rewrite <- mem_In; destruct (mem s l); split; congruence.
Qed.

Lemma distinct_NoDup (l : list string) : distinct l = true <-> NoDup l.
Proof.
  induction l as [|x l IH]; simpl.
  - split; [constructor | reflexivity].
  - rewrite andb_true_iff, negb_true_iff, mem_false, IH; split.
    + intros [Hx Hl]; constructor; assumption.
    + intro H; inversion H; subst; split; assumption.
Qed.

Lemma mem_app (s : string) (l1 l2 : list string) :
  mem s (l1 ++ l2) = mem s l1 || mem s l2.
Proof. unfold mem; apply existsb_app. Qed.

Lemma distinct_snoc (l : list string) (x : string) :
  distinct l = true -> mem x l = false -> distinct (l ++ [x]) = true.
Proof.
  rewrite !distinct_NoDup, mem_false; intros Hl Hx.
  induction Hl as [|y l Hy Hl IH]; simpl.
  - constructor; [intros [] | constructor].
  - constructor.
    + rewrite in_app_iff; intros [H|[H|[]]]; [exact (Hy H)|].
      subst; apply Hx; left; reflexivity.
    + apply IH; intro H; apply Hx; right; exact H.
Qed.

Lemma consistent_spec (db : Database) :
  consistent db = true <->
  NoDup (ids (profiles db)) /\ NoDup (emails (profiles db))
  /\ NoDup (user_ids (auth_users db))
  /\ incl (ids (profiles db)) (user_ids (auth_users db)).
Proof.
  unfold consistent.
  rewrite !andb_true_iff, !distinct_NoDup, forallb_forall.
  unfold incl; split.
  - intros [[[H1 H2] H3] H4]; repeat split; try assumption.
    intros a Ha; apply mem_In, H4, Ha.
  - intros (H1 & H2 & H3 & H4); repeat split; try assumption.
    intros a Ha; apply mem_In, H4, Ha.
Qed.

Lemma consistent_empty : consistent empty = true.
Proof. reflexivity. Qed.

Lemma filter_none (A : Type) (f : A -> bool) (l : list A) :
  (forall x, In x l -> f x = false) -> filter f l = [].
Proof.
  induction l as [|a l IH]; simpl; intro H; [reflexivity|].
  rewrite (H a (or_introl eq_refl)). apply IH; intros x Hx; apply H; right; exact Hx.
Qed.

(** A key held by at most one row. *)
Lemma NoDup_rows_of (tbl : list Row) (uid : uuid) :
  NoDup (ids tbl) -> length (rows_of uid tbl) <= 1.
Proof.
  unfold rows_of, ids.
  induction tbl as [|r tbl IH]; simpl; intro H; [lia|].
  inversion H as [|? ? Hnotin Hrest]; subst.
  destruct (id r =? uid) eqn:E; simpl; [|apply IH, Hrest].
  apply String.eqb_eq in E.
  assert (filter (fun p => id p =? uid) tbl = []) as ->; [|simpl; lia].
  apply filter_none; intros p Hp.
  destruct (id p =? uid) eqn:E'; [|reflexivity].
  apply String.eqb_eq in E'. exfalso; apply Hnotin.
  rewrite E, <- E'. apply in_map, Hp.
Qed.

Lemma NoDup_map_filter (A B : Type) (f : A -> B) (g : A -> bool) (l : list A) :
  NoDup (map f l) -> NoDup (map f (filter g l)).
Proof.
  induction l as [|a l IH]; simpl; intro H; [constructor|].
  inversion H as [|? ? Hnotin Hrest]; subst.
  destruct (g a); simpl; [|apply IH, Hrest].
  constructor; [|apply IH, Hrest].
  intro Hin; apply Hnotin.
  apply in_map_iff in Hin as (x & Hx & Hin).
  apply in_map_iff; exists x; split; [exact Hx|].
  apply filter_In in Hin; tauto.
Qed.

(** *** The statements keep the constraints *)

Lemma insert_profile_inr (c : DbRole) (now : timestamptz) (db d : Database)
    (v : InsertValues) :
  insert_profile c now db v = inr d ->
  exists e, v_email v = Some e
    /\ rls_insert_check c (new_row now v e) = true
    /\ mem (v_id v) (ids (profiles db)) = false
    /\ mem e (emails (profiles db)) = false
    /\ mem (v_id v) (user_ids (auth_users db)) = true
    /\ d = {| auth_users := auth_users db;
              profiles := profiles db ++ [new_row now v e] |}.
Proof.
  unfold insert_profile.
  destruct (v_email v) as [e|]; [|discriminate].
  cbv zeta. change (id (new_row now v e)) with (v_id v).
  destruct (rls_insert_check c (new_row now v e)) eqn:E1; simpl; [|discriminate].
  destruct (mem (v_id v) (ids (profiles db))) eqn:E2; [discriminate|].
  destruct (mem e (emails (profiles db))) eqn:E3; [discriminate|].
  destruct (mem (v_id v) (user_ids (auth_users db))) eqn:E4; simpl; [|discriminate].
  intro H; injection H as <-. exists e; repeat split; assumption.
Qed.

Lemma insert_profile_consistent (c : DbRole) (now : timestamptz)
    (db d : Database) (v : InsertValues) :
  insert_profile c now db v = inr d ->
  consistent db = true -> consistent d = true.
Proof.
  intros H Hc.
  apply insert_profile_inr in H as (e & _ & _ & Hid & Hem & Hfk & ->).
  apply consistent_spec in Hc as (H1 & H2 & H3 & H4).
  apply consistent_spec; simpl.
  unfold ids, emails in *; rewrite !map_app; simpl.
  repeat split.
  - apply distinct_NoDup, distinct_snoc; [apply distinct_NoDup, H1 | exact Hid].
  - apply distinct_NoDup, distinct_snoc; [apply distinct_NoDup, H2 | exact Hem].
  - exact H3.
  - intros a Ha; apply in_app_iff in Ha as [Ha|[<-|[]]].
    + apply H4, Ha.
    + apply mem_In, Hfk.
Qed.

Lemma handle_new_user_inr (now : timestamptz) (db d : Database) (NEW : UsersRow) :
  handle_new_user now db NEW = inr d ->
  exists r e,
    (match meta_role (raw_user_meta_data NEW) with
     | None => Some user
     | Some s => cast_user_role s
     end) = Some r
    /\ u_email NEW = Some e
    /\ mem (u_id NEW) (ids (profiles db)) = false
    /\ d = {| auth_users := auth_users db;
              profiles := profiles db ++
                [{| id := u_id NEW; email := e;
                    full_name := Some (coalesce
                      (meta_full_name (raw_user_meta_data NEW)) "");
                    avatar_url := None; role := r;
                    created_at := now; updated_at := now |}] |}.
Proof.
  unfold handle_new_user.
  destruct (match meta_role (raw_user_meta_data NEW) with
            | None => Some user | Some s => cast_user_role s end) as [r|];
    [|discriminate].
  intro H. apply insert_profile_inr in H as (e & He & _ & Hid & _ & _ & ->).
  exists r, e; repeat split; assumption.
Qed.

Lemma insert_user_inr (now : timestamptz) (db d : Database) (NEW : UsersRow) :
  insert_user now db NEW = inr d ->
  mem (u_id NEW) (user_ids (auth_users db)) = false
  /\ exists r e,
    (match meta_role (raw_user_meta_data NEW) with
     | None => Some user
     | Some s => cast_user_role s
     end) = Some r
    /\ u_email NEW = Some e
    /\ mem (u_id NEW) (ids (profiles db)) = false
    /\ d = {| auth_users := auth_users db ++ [NEW];
              profiles := profiles db ++
                [{| id := u_id NEW; email := e;
                    full_name := Some (coalesce
                      (meta_full_name (raw_user_meta_data NEW)) "");
                    avatar_url := None; role := r;
                    created_at := now; updated_at := now |}] |}.
Proof.
  unfold insert_user.
  destruct (mem (u_id NEW) (user_ids (auth_users db))) eqn:E; [discriminate|].
  intro H; split; [reflexivity|].
  apply handle_new_user_inr in H as (r & e & Hr & He & Hid & ->).
  exists r, e; repeat split; assumption.
Qed.

Lemma insert_user_consistent (now : timestamptz) (db d : Database)
    (NEW : UsersRow) :
  insert_user now db NEW = inr d ->
  consistent db = true -> consistent d = true.
Proof.
  unfold insert_user.
  destruct (mem (u_id NEW) (user_ids (auth_users db))) eqn:E; [discriminate|].
  unfold handle_new_user.
  destruct (match meta_role (raw_user_meta_data NEW) with
            | None => Some user | Some s => cast_user_role s end) as [r|];
    [|discriminate].
  intros H Hc. apply (insert_profile_consistent _ _ _ _ H).
  apply consistent_spec in Hc as (H1 & H2 & H3 & H4).
  apply consistent_spec; simpl.
  unfold user_ids in *; rewrite map_app; simpl.
  repeat split; try assumption.
  - apply distinct_NoDup, distinct_snoc; [apply distinct_NoDup, H3 | exact E].
  - intros a Ha; apply in_app_iff; left; apply H4, Ha.
Qed.

Lemma delete_user_consistent (db : Database) (uid : uuid) :
  consistent db = true -> consistent (delete_user db uid) = true.
Proof.
  intro Hc. apply consistent_spec in Hc as (H1 & H2 & H3 & H4).
  apply consistent_spec; unfold delete_user, ids, emails, user_ids in *; simpl.
  repeat split; try (apply NoDup_map_filter; assumption).
  intros a Ha. apply in_map_iff in Ha as (p & <- & Hp).
  apply filter_In in Hp as [Hp Hne].
  assert (In (id p) (map u_id (auth_users db))) as Hin
    by (apply H4, in_map, Hp).
  apply in_map_iff in Hin as (u & Hu & Hin).
  apply in_map_iff; exists u; split; [exact Hu|].
  apply filter_In; split; [exact Hin|]. rewrite Hu; exact Hne.
Qed.

(** *** The rewriter *)

(** Both the SELECT and the UPDATE policies of an authenticated caller hold
    the subquery on [profiles]: the rewriter refuses the statement. *)
Lemma rls_select_authenticated (uid : uuid) (tbl : list Row) :
  rls_select (authenticated uid) tbl = inl infinite_recursion.
Proof. reflexivity. Qed.

Lemma rls_update_using_authenticated (uid : uuid) (tbl : list Row) :
  rls_update_using (authenticated uid) tbl = inl infinite_recursion.
Proof. reflexivity. Qed.

Lemma rls_update_check_authenticated (uid : uuid) (tbl : list Row) :
  rls_update_check (authenticated uid) tbl = inl infinite_recursion.
Proof. reflexivity. Qed.

(** No policy applies to [anon]: nothing to expand, no row passes. *)
Lemma rls_anon (tbl : list Row) :
  rls_select anon tbl = inr (fun _ => false)
  /\ rls_update_using anon tbl = inr (fun _ => false)
  /\ rls_update_check anon tbl = inr (fun _ => false).
Proof. repeat split. Qed.

Lemma rls_owner (tbl : list Row) :
  rls_select owner tbl = inr (fun _ => true)
  /\ rls_update_using owner tbl = inr (fun _ => true)
  /\ rls_update_check owner tbl = inr (fun _ => true).
Proof. repeat split. Qed.

(** The INSERT policy has no subquery; expanded like the others it is the
    check [insert_profile] makes. *)
Lemma insert_check_expands (c : DbRole) (tbl : list Row) :
  exists f, expand nesting c false (check_exprs c for_insert) tbl = inr f
            /\ forall r, f r = rls_insert_check c r.
Proof.
  destruct c as [|uid|]; eexists; (split; [reflexivity|]); intro r; simpl.
  - reflexivity.
  - unfold allow_creation_check. apply orb_false_r.
  - reflexivity.
Qed.

Lemma select_profiles_authenticated (uid : uuid) (db : Database)
    (where_ : Row -> bool) :
  select_profiles (authenticated uid) db where_ = inl infinite_recursion.
Proof. reflexivity. Qed.

Lemma update_profiles_authenticated (uid : uuid) (now : timestamptz)
    (db : Database) (where_ : Row -> bool) (s : UpdateValues) :
  update_profiles (authenticated uid) now db where_ s = inl infinite_recursion.
Proof. reflexivity. Qed.

Lemma update_profiles_inr (c : DbRole) (now : timestamptz) (db d : Database)
    (where_ : Row -> bool) (s : UpdateValues) :
  update_profiles c now db where_ s = inr d ->
  exists may check tbl,
    update_rows may check now where_ s (profiles db) = inr tbl
    /\ distinct (ids tbl) = true
    /\ distinct (emails tbl) = true
    /\ forallb (fun i => mem i (user_ids (auth_users db))) (ids tbl) = true
    /\ d = {| auth_users := auth_users db; profiles := tbl |}.
Proof.
  unfold update_profiles.
  destruct (rls_select c (profiles db)) as [e|visible]; [discriminate|].
  destruct (rls_update_using c (profiles db)) as [e|passes]; [discriminate|].
  destruct (rls_update_check c (profiles db)) as [e|check]; [discriminate|].
  destruct (update_rows _ check now where_ s (profiles db)) as [e|tbl] eqn:E0;
    [discriminate|].
  destruct (distinct (ids tbl)) eqn:E1; simpl; [|discriminate].
  destruct (distinct (emails tbl)) eqn:E2; simpl; [|discriminate].
  destruct (forallb (fun i => mem i (user_ids (auth_users db))) (ids tbl)) eqn:E3;
    simpl; [|discriminate].
  intro H; injection H as <-.
  exists (fun r => visible r && passes r), check, tbl; repeat split; assumption.
Qed.

Lemma update_profiles_consistent (c : DbRole) (now : timestamptz)
    (db d : Database) (where_ : Row -> bool) (s : UpdateValues) :
  update_profiles c now db where_ s = inr d ->
  consistent db = true -> consistent d = true.
Proof.
  intros H Hc.
  apply update_profiles_inr in H as (may & check & tbl & _ & H1 & H2 & H3 & ->).
  unfold consistent in *; simpl.
  rewrite H1, H2, H3; simpl.
  rewrite !andb_true_iff in Hc. rewrite andb_true_r. tauto.
Qed.

(** *** UPDATE, row by row *)

(** Each row is either untouched or replaced by the SET values followed
    by the trigger. *)
Lemma update_rows_shape (may check : Row -> bool) (now : timestamptz)
    (where_ : Row -> bool) (s : UpdateValues) (rows rows' : list Row) :
  update_rows may check now where_ s rows = inr rows' ->
  Forall2 (fun old new =>
             (new = old)
             \/ (where_ old = true
                 /\ may old = true
                 /\ check new = true
                 /\ new = update_updated_at_column now (apply_set s old)))
          rows rows'.
Proof.
  revert rows'; induction rows as [|r rest IH]; simpl; intros rows' H.
  - injection H as <-; constructor.
  - destruct (where_ r && may r) eqn:E.
    + destruct (check _) eqn:Ck; [|discriminate].
      destruct (update_rows may check now where_ s rest) as [e|rest']; [discriminate|].
      injection H as <-. constructor; [|apply IH; reflexivity].
      right. rewrite !andb_true_iff in E. tauto.
    + destruct (update_rows may check now where_ s rest) as [e|rest']; [discriminate|].
      injection H as <-. constructor; [|apply IH; reflexivity].
      left; reflexivity.
Qed.

(** When the filter lets no selected row through, the statement rewrites
    none. *)
Lemma update_rows_refused (may check : Row -> bool) (now : timestamptz)
    (where_ : Row -> bool) (s : UpdateValues) (rows : list Row) :
  (forall r, In r rows -> where_ r = true -> may r = false) ->
  update_rows may check now where_ s rows = inr rows.
Proof.
  induction rows as [|r rest IH]; simpl; intro H; [reflexivity|].
  rewrite IH by (intros q Hq; apply H; right; exact Hq).
  destruct (where_ r) eqn:E; simpl; [|reflexivity].
  rewrite (H r (or_introl eq_refl) E). reflexivity.
Qed.

Lemma database_eta (db : Database) :
  {| auth_users := auth_users db; profiles := profiles db |} = db.
Proof. destruct db; reflexivity. Qed.

(** A statement of [anon] finds every row filtered out and leaves the
    database as it was. *)
Lemma update_profiles_anon (now : timestamptz) (db : Database)
    (where_ : Row -> bool) (s : UpdateValues) :
  consistent db = true ->
  update_profiles anon now db where_ s = inr db.
Proof.
  intro Hc. unfold update_profiles.
  destruct (rls_anon (profiles db)) as (-> & -> & ->).
  rewrite update_rows_refused by reflexivity.
  unfold consistent in Hc. rewrite !andb_true_iff in Hc.
  destruct Hc as [[[-> ->] _] ->]. simpl.
  rewrite database_eta. reflexivity.
Qed.

End PgFacts.

(** ** The backend *)
Module SupabaseFacts.
Import Supabase.

Lemma set_password_ids (uid : uuid) (password : string) (l : list Pg.UsersRow) :
  Pg.user_ids (map (set_password uid password) l) = Pg.user_ids l.
Proof.
  unfold Pg.user_ids; rewrite map_map; apply map_ext; intro r.
  unfold set_password; destruct (Pg.u_id r =? uid); reflexivity.
Qed.

Lemma handle_consistent (X : Type) (op : Op X) (w : World) :
  Pg.consistent (db w) = true ->
  Pg.consistent (db (snd (handle op w))) = true.
Proof.
  intro Hc. unfold handle.
  destruct op; simpl; destruct (online w); simpl; try exact Hc.
  - unfold sign_up.
    destruct (existsb _ _); [exact Hc|].
    destruct (uuids w) as [|i rest]; [exact Hc|].
    destruct (Pg.insert_user _ _ _) as [e|d] eqn:E; [exact Hc|].
    apply PgFacts.insert_user_consistent in E; [|exact Hc].
    destruct (autoconfirm w); exact E.
  - unfold sign_in. destruct (find _ _); exact Hc.
  - unfold get_user. destruct (session w); [|exact Hc].
    destruct (find _ _); exact Hc.
  - unfold update_user. destruct (session w); [|exact Hc]. simpl.
    unfold Pg.consistent in *; simpl. rewrite set_password_ids. exact Hc.
  - unfold insert.
    destruct (Pg.insert_profile _ _ _ _) as [e|d] eqn:E; [exact Hc|].
    exact (PgFacts.insert_profile_consistent _ _ _ _ E Hc).
  - unfold select_single.
    destruct (Pg.select_profiles _ _ _) as [e|[|r [|]]]; exact Hc.
  - unfold update.
    destruct (Pg.update_profiles _ _ _ _ _) as [e|d] eqn:E; [exact Hc|].
    exact (PgFacts.update_profiles_consistent _ _ _ _ _ E Hc).
Qed.

Lemma step_consistent (w w' : World) :
  step w w' -> Pg.consistent (db w) = true -> Pg.consistent (db w') = true.
Proof.
  intros [X op w0|w0 w1 E|w0 uid] Hc.
  - apply handle_consistent, Hc.
  - rewrite E; exact Hc.
  - apply PgFacts.delete_user_consistent, Hc.
Qed.

Lemma reachable_consistent (w : World) :
  reachable w -> Pg.consistent (db w) = true.
Proof.
  induction 1 as [w E D|w w' _ IH Hstep].
  - unfold Pg.consistent. rewrite E, D. reflexivity.
  - exact (step_consistent Hstep IH).
Qed.

Lemma exec_reachable (A : Type) (p : Prog A) (w : World) :
  reachable w -> reachable (after (exec handle p w)).
Proof.
  apply exec_invariant. intros X op w0 Hw.
  exact (reach_step Hw (step_call op w0)).
Qed.

Arguments handle : simpl never.

Lemma cast_role_text (r : user_role) : cast_user_role (role_text r) = Some r.
Proof. destruct r; reflexivity. Qed.

Lemma insert_profile_duplicate (c : Pg.DbRole) (now : timestamptz)
    (d : Pg.Database) (v : Pg.InsertValues) :
  Pg.mem (Pg.v_id v) (Pg.ids (Pg.profiles d)) = true ->
  exists e, Pg.insert_profile c now d v = inl e.
Proof.
  intro H. unfold Pg.insert_profile.
  destruct (Pg.v_email v) as [e|]; [|eexists; reflexivity].
  cbv zeta. change (Pg.id (Pg.new_row now v e)) with (Pg.v_id v).
  destruct (Pg.rls_insert_check _ _); simpl; [|eexists; reflexivity].
  rewrite H. eexists; reflexivity.
Qed.

(** The client's insert of a key the table already holds is refused, and
    the world stays as it is. *)
Lemma handle_insert_duplicate (v : Pg.InsertValues) (w : World) :
  Pg.mem (Pg.v_id v) (Pg.ids (Pg.profiles (db w))) = true ->
  exists e, handle (profiles_insert v) w = (Fulfilled (Some e), w).
Proof.
  intro H. unfold handle; simpl.
  destruct (online w); [|eexists; reflexivity].
  unfold insert.
  destruct (insert_profile_duplicate (caller w) (NOW w) (db w) v H) as [e ->].
  eexists; reflexivity.
Qed.

(** How a sign-up runs against the backend: either the provider refuses
    and the database is untouched, or the user row and, through the
    trigger, its profile are written, and the client's own insert that
    follows is refused. *)
Lemma signUp_run (d : SignUpData) (w : World) :
  let r := exec handle (AuthService.signUp d) w in
  (exists e, outcome r = Fulfilled (AuthService.failed e)
             /\ db (after r) = db w)
  \/ (exists i rest e,
        uuids w = i :: rest
        /\ online w = true
        /\ Pg.mem i (Pg.ids (Pg.profiles (db w))) = false
        /\ Pg.mem i (Pg.user_ids (Pg.auth_users (db w))) = false
        /\ outcome r = Fulfilled
             {| resp_user := Some (as_AuthUser (signed_up d i));
                resp_session :=
                  if autoconfirm w
                  then Some {| access_token := i; session_user := signed_up d i |}
                  else None;
                resp_error := None |}
        /\ Pg.profiles (db (after r))
             = Pg.profiles (db w) ++ [trigger_row d i (NOW w)]
        /\ Pg.auth_users (db (after r))
             = Pg.auth_users (db w) ++ [users_row d i]
        /\ session (after r)
             = (if autoconfirm w
                then Some {| access_token := i; session_user := signed_up d i |}
                else session w)
        /\ online (after r) = true
        /\ NOW (after r) = NOW w
        /\ console_of (trace r)
             = [console_error "Profile creation error:" (Some e)]).
Proof.
  intro r; subst r. unfold AuthService.signUp; simpl.
  destruct (handle _ w) as [r w1] eqn:E; simpl.
  unfold handle in E; simpl in E.
  destruct (online w) eqn:On.
  2:{ injection E as <- <-; simpl. left; eexists; split; reflexivity. }
  unfold sign_up in E.
  destruct (existsb _ _).
  { injection E as <- <-; simpl. left; eexists; split; reflexivity. }
  destruct (uuids w) as [|i rest] eqn:U.
  { injection E as <- <-; simpl. left; eexists; split; reflexivity. }
  destruct (Pg.insert_user _ _ _) as [e|d'] eqn:Ins.
  { injection E as <- <-; simpl. left; eexists; split; reflexivity. }
  right.
  apply PgFacts.insert_user_inr in Ins
    as (Hfresh & ro & em & Hro & Hem & Hnew & ->).
  simpl in Hro, Hem, Hfresh, Hnew.
  rewrite cast_role_text in Hro; injection Hro as <-.
  injection Hem as <-.
  assert (forall w2, Pg.profiles (db w2)
            = Pg.profiles (db w) ++ [trigger_row d i (NOW w)] ->
          Pg.mem i (Pg.ids (Pg.profiles (db w2))) = true) as Hdup.
  { intros w2 ->. unfold Pg.ids; rewrite map_app, PgFacts.mem_app.
    apply orb_true_iff; right; apply PgFacts.mem_In; left; reflexivity. }
  destruct (autoconfirm w); injection E as <- <-; simpl;
    match goal with
    | |- context [handle (profiles_insert ?v) ?w2] =>
        destruct (handle_insert_duplicate v w2 (Hdup w2 eq_refl)) as [e ->]
    end; simpl;
    exists i, rest, e; repeat split; assumption.
Qed.

Lemma rows_of_fresh (i : uuid) (tbl : list Pg.Row) :
  Pg.mem i (Pg.ids tbl) = false -> Pg.rows_of i tbl = [].
Proof.
  intro H. apply PgFacts.filter_none; intros p Hp.
  destruct (Pg.id p =? i) eqn:E; [|reflexivity].
  apply String.eqb_eq in E. apply PgFacts.mem_false in H.
  exfalso; apply H. rewrite <- E. apply in_map, Hp.
Qed.

Lemma rows_of_snoc (i : uuid) (tbl : list Pg.Row) (p : Pg.Row) :
  Pg.mem i (Pg.ids tbl) = false -> Pg.id p = i ->
  Pg.rows_of i (tbl ++ [p]) = [p].
Proof.
  intros H E. unfold Pg.rows_of. rewrite filter_app.
  fold (Pg.rows_of i tbl). rewrite (rows_of_fresh _ _ H). simpl.
  rewrite E, String.eqb_refl. reflexivity.
Qed.

Lemma find_snoc (A : Type) (f : A -> bool) (l : list A) (x : A) :
  (forall y, In y l -> f y = false) -> f x = true -> find f (l ++ [x]) = Some x.
Proof.
  intros Hl Hx. induction l as [|a l IH]; simpl.
  - rewrite Hx; reflexivity.
  - rewrite (Hl a (or_introl eq_refl)). apply IH.
    intros y Hy; apply Hl; right; exact Hy.
Qed.

Lemma get_user_signed_in (w : World) (s : Session) (r : Pg.UsersRow) :
  online w = true -> session w = Some s ->
  find (fun r => Pg.u_id r =? user_id (session_user s)) (Pg.auth_users (db w))
    = Some r ->
  handle auth_getUser w
  = (Fulfilled {| got_user := Some (user_of r); got_error := None |}, w).
Proof.
  intros On Hs Hf. unfold handle; simpl. rewrite On.
  unfold get_user. rewrite Hs, Hf. reflexivity.
Qed.

Lemma get_user_signed_out (w : World) :
  session w = None ->
  exists e, handle auth_getUser w
            = (Fulfilled {| got_user := None; got_error := Some e |}, w).
Proof.
  intro Hs. unfold handle; simpl. destruct (online w).
  - unfold get_user. rewrite Hs. eexists; reflexivity.
  - eexists; reflexivity.
Qed.

Lemma handle_select_world (i : uuid) (w : World) :
  exists sel, handle (profiles_select_single i) w = (Fulfilled sel, w).
Proof.
  unfold handle; simpl. destruct (online w); [|eexists; reflexivity].
  unfold select_single.
  destruct (Pg.select_profiles _ _ _) as [e|[|p [|q l]]]; eexists; reflexivity.
Qed.

(** Every profile query of a signed-in client is refused by the policies,
    and the world stays as it is. *)
Lemma handle_select_refused (i : uuid) (w : World) (s : Session) :
  online w = true -> session w = Some s ->
  handle (profiles_select_single i) w
  = (Fulfilled {| single_data := None; single_error := Some refused |}, w).
Proof.
  intros On Hs. unfold handle; simpl. rewrite On.
  unfold select_single, caller. rewrite Hs.
  rewrite PgFacts.select_profiles_authenticated. reflexivity.
Qed.

(** And so is every profile update. *)
Lemma handle_update_refused (v : Pg.UpdateValues) (i : uuid) (w : World)
    (s : Session) :
  online w = true -> session w = Some s ->
  handle (profiles_update v i) w = (Fulfilled (Some refused), w).
Proof.
  intros On Hs. unfold handle; simpl. rewrite On.
  unfold update, caller. rewrite Hs.
  rewrite PgFacts.update_profiles_authenticated. reflexivity.
Qed.

(** A read by the table owner of the rows of one id. *)
Lemma select_as_owner (i : uuid) (d : Pg.Database) :
  Pg.select_profiles Pg.owner d (fun r => Pg.id r =? i)
  = inr (Pg.rows_of i (Pg.profiles d)).
Proof.
  unfold Pg.select_profiles, Pg.rows_of; simpl. f_equal.
  apply filter_ext. intro r. apply andb_true_r.
Qed.

End SupabaseFacts.

(** ** Claims on the backend *)
Section Backend.
Import Supabase SupabaseFacts.

(** C2. In every state the system can reach, a user has at most one row
    in [profiles] and every row of [profiles] carries the id of a user.
    A sign-up, which tries to create the row twice (the trigger on
    [auth.users] and the insert of the client), adds at most one row, and
    the user it returns has exactly one. *)
Theorem one_profile_per_user (w : World) (d : SignUpData) :
  reachable w ->
  let r := exec handle (AuthService.signUp d) w in
  (forall u, In u (Pg.auth_users (db w)) ->
     length (Pg.rows_of (Pg.u_id u) (Pg.profiles (db w))) <= 1)
  /\ (forall p, In p (Pg.profiles (db w)) ->
       exists u, In u (Pg.auth_users (db w)) /\ Pg.id p = Pg.u_id u)
  /\ length (Pg.profiles (db (after r))) <= S (length (Pg.profiles (db w)))
  /\ (forall resp au,
       outcome r = Fulfilled resp -> resp_user resp = Some au ->
       exists p, Pg.rows_of (user_id (base au)) (Pg.profiles (db (after r))) = [p]
                 /\ Pg.id p = user_id (base au)).
Proof.
  intros Hw r.
  pose proof (reachable_consistent Hw) as Hc.
  apply PgFacts.consistent_spec in Hc as (H1 & _ & _ & H4).
  split; [|split; [|split]].
  - intros u _. apply PgFacts.NoDup_rows_of, H1.
  - intros p Hp.
    assert (In (Pg.id p) (Pg.user_ids (Pg.auth_users (db w)))) as Hin
      by (apply H4, in_map, Hp).
    apply in_map_iff in Hin as (u & Hu & Hin).
    exists u; split; [exact Hin | symmetry; exact Hu].
  - destruct (signUp_run d w) as [(e & _ & Hdb)|(i & rest & e & Hrun)].
    + subst r. rewrite Hdb. lia.
    + destruct Hrun as (_ & _ & _ & _ & _ & Hp & _).
      subst r. rewrite Hp, length_app; simpl. lia.
  - intros resp au Hout Hau.
    destruct (signUp_run d w) as [(e & Hout' & _)|(i & rest & e & Hrun)].
    + subst r. rewrite Hout' in Hout. injection Hout as <-. discriminate.
    + destruct Hrun as (_ & _ & Hfresh & _ & Hout' & Hp & _).
      subst r. rewrite Hout' in Hout. injection Hout as <-.
      simpl in Hau. injection Hau as <-.
      exists (trigger_row d i (NOW w)); split; [|reflexivity].
      rewrite Hp. apply rows_of_snoc; [exact Hfresh | reflexivity].
Qed.


(** C3. A sign-up that names no role and succeeds leaves exactly one
    profile row for the new user, with role [user], and a read of that id by
    the table owner returns it.  The fetch of the client does not: the
    SELECT policies hold a subquery on [profiles] itself, every fetch by an
    authenticated caller is refused with "infinite recursion detected in
    policy" (42P17), and getUserWithProfile logs the error and resolves to the
    user with no profile, hence with no role.  Whatever the input, a stored
    role is one of [user], [admin] and [instructor]. *)
Theorem signup_role_is_stored_but_not_fetched (w : World) (d : SignUpData)
    (resp : AuthResponse) (au : AuthUser) :
  su_role d = None ->
  let r := exec handle (AuthService.signUp d) w in
  outcome r = Fulfilled resp ->
  resp_user resp = Some au ->
  let uid := user_id (base au) in
  let fetch := exec handle (AuthService.getUserWithProfile uid) (after r) in
  (exists p, Pg.rows_of uid (Pg.profiles (db (after r))) = [p]
             /\ Pg.role p = user
             /\ Pg.select_profiles Pg.owner (db (after r))
                  (fun q => Pg.id q =? uid) = inr [p])
  /\ (forall caller,
        Pg.select_profiles (Pg.authenticated caller) (db (after r))
          (fun q => Pg.id q =? uid) = inl Pg.infinite_recursion)
  /\ (autoconfirm w = true ->
        outcome fetch = Fulfilled (Some (as_AuthUser (base au)))
        /\ console_of (trace fetch)
           = [console_error "Profile fetch error:" (Some refused)])
  /\ (forall p, In p (Pg.profiles (db (after r))) ->
        Pg.role p = user \/ Pg.role p = admin \/ Pg.role p = instructor).
Proof.
  intros Hrole r Hout Hau uid fetch.
  destruct (signUp_run d w) as [(e & Hout' & _)|(i & rest & e & Hrun)].
  { subst r. rewrite Hout' in Hout. injection Hout as <-. discriminate. }
  destruct Hrun as (_ & _ & Hfresh & Hnew & Hout' & Hp & Hu & Hs & On & _).
  fold r in Hout', Hp, Hu, Hs, On.
  rewrite Hout' in Hout. injection Hout as <-.
  simpl in Hau. injection Hau as <-.
  assert (uid = i) as Huid by reflexivity.
  clearbody r uid. subst uid.
  assert (Pg.rows_of i (Pg.profiles (db (after r))) = [trigger_row d i (NOW w)])
    as Hrows by (rewrite Hp; apply rows_of_snoc; [exact Hfresh | reflexivity]).
  split; [|split; [|split]];
    [| | |intros p _; destruct (Pg.role p); auto].
  - exists (trigger_row d i (NOW w)). split; [exact Hrows|]. split.
    + simpl; rewrite Hrole; reflexivity.
    + rewrite select_as_owner, Hrows. reflexivity.
  - intro caller. apply PgFacts.select_profiles_authenticated.
  - intro AC. rewrite AC in Hs. subst fetch.
    rewrite (getUserWithProfile_falls_back handle i (after r)
               (w1 := after r) (w2 := after r) (u := signed_up d i)
               (s := {| single_data := None; single_error := Some refused |})
               (e := refused)).
    + split; reflexivity.
    + apply (get_user_signed_in (r := users_row d i) _ On Hs).
      rewrite Hu. apply find_snoc; [|apply String.eqb_refl].
      intros y Hy. simpl. destruct (Pg.u_id y =? i) eqn:E; [|reflexivity].
      apply String.eqb_eq in E. apply PgFacts.mem_false in Hnew.
      exfalso; apply Hnew. rewrite <- E. apply in_map, Hy.
    + apply (handle_select_refused i _ On Hs).
    + reflexivity.
Qed.

(** C4. Without a session, updateProfile resolves to the error it makes
    up itself, never reaches a table and leaves every row as it was.  With
    the session of a user the provider knows, it does send the update for
    that user's id, once; but the UPDATE policies hold a subquery on
    [profiles] itself, the statement is refused with "infinite recursion
    detected in policy" (42P17), updateProfile logs and returns that error,
    and no row, not even the caller's, is changed. *)
Theorem updateProfile_without_and_with_a_user (w : World)
    (updates : ProfileUpdates) :
  let r := exec handle (AuthService.updateProfile updates) w in
  (session w = None ->
     outcome r = Fulfilled (Some AuthService.No_authenticated_user)
     /\ existsb is_table_write (trace r) = false
     /\ db (after r) = db w)
  /\ (forall s u,
        session w = Some s ->
        online w = true ->
        find (fun r => Pg.u_id r =? user_id (session_user s))
             (Pg.auth_users (db w)) = Some u ->
        outcome r = Fulfilled (Some refused)
        /\ db (after r) = db w
        /\ filter is_table_write (trace r)
           = [EvCall (profiles_update
                        (AuthService.update_values updates (client_clock w))
                        (user_id (session_user s)))
                     (Fulfilled (Some refused))]
        /\ In (console_error "Profile update error:" (Some refused))
              (console_of (trace r))).
Proof.
  intro r; subst r. split.
  - intro Hs. destruct (get_user_signed_out w Hs) as [e He].
    unfold AuthService.updateProfile, AuthService.getCurrentUser; simpl.
    rewrite He; simpl. repeat split.
  - intros s u Hs On Hf.
    pose proof (get_user_signed_in w On Hs Hf) as Hg.
    assert (Pg.u_id u = user_id (session_user s)) as Hid.
    { apply find_some in Hf as [_ Hf]. apply String.eqb_eq in Hf. exact Hf. }
    pose proof (handle_select_refused (Pg.u_id u) w On Hs) as Hsel.
    unfold AuthService.updateProfile, AuthService.getCurrentUser,
      AuthService.getUserWithProfile; simpl.
    rewrite Hg; simpl. rewrite Hg; simpl. rewrite Hsel; simpl.
    change (handle Date_now w) with (Fulfilled (client_clock w), w); simpl.
    rewrite Hid, (handle_update_refused _ _ w On Hs); simpl.
    repeat split. right; left; reflexivity.
Qed.

(** C6. After a sign-out that succeeded, getCurrentUser resolves to
    [null]; the sign-out has emitted the event [SIGNED_OUT] with no
    session, and the callback of the session context, given that event,
    sets the cached user to [null] and the admin flag to [false]. *)
Theorem after_signOut_no_user (w : World) (c : AuthProvider.State) :
  let r := exec handle AuthService.signOut w in
  outcome r = Fulfilled None ->
  outcome (exec handle AuthService.getCurrentUser (after r)) = Fulfilled None
  /\ emitted (after r) = emitted w ++ [("SIGNED_OUT", None)]
  /\ (exists c',
        outcome (exec handle
                   (AuthProvider.onAuthStateChange "SIGNED_OUT" None c)
                   (after r))
        = Fulfilled (Fulfilled tt, c')
        /\ AuthProvider.st_user c' = None
        /\ AuthProvider.isAdmin c' = false
        /\ AuthProvider.st_session c' = None).
Proof.
  intro r; subst r.
  unfold AuthService.signOut; simpl.
  destruct (handle auth_signOut w) as [a w1] eqn:E.
  unfold handle in E; simpl in E.
  destruct (online w); injection E as <- <-; simpl; [|discriminate].
  intros _. split; [|split].
  - destruct (get_user_signed_out (auth_state_change "SIGNED_OUT" None w) eq_refl)
      as [e He].
    unfold AuthService.getCurrentUser; simpl. rewrite He. reflexivity.
  - reflexivity.
  - eexists; simpl. repeat split.
Qed.

End Backend.

(** ** Claims on the schema *)
Section Schema.
Import Pg.

Variable now : timestamptz.
Variable db : Database.

(** C7. The two UPDATE policies are written so that a caller without an
    admin row rewrites its own row only and a caller with an admin row
    rewrites any row.  As declared they do neither: "Admins can update all
    profiles" reads [profiles] inside a policy on [profiles], so for every
    authenticated caller, with or without an admin row, the rewriter refuses
    the statement with "infinite recursion detected in policy" (42P17)
    before a row is looked at.  No row of another user is ever changed, and
    none of the caller's either. *)
Theorem authenticated_updates_are_refused (uid : uuid)
    (where_ : Row -> bool) (s : UpdateValues) :
  In exists_admin (using_exprs (authenticated uid) for_update)
  /\ rls_update_using (authenticated uid) (profiles db) = inl infinite_recursion
  /\ update_profiles (authenticated uid) now db where_ s
     = inl infinite_recursion.
Proof.
  split; [right; left; reflexivity|]. split; reflexivity.
Qed.

(** C5 (as amended). A successful update leaves each row untouched or
    writes the NOW() of the statement into its [updated_at], whatever
    [updated_at] the statement itself supplied; so the [updated_at] of a
    rewritten row has gone up exactly when that NOW() is later than the
    value the row held. *)
Theorem update_writes_NOW (c : DbRole) (where_ : Row -> bool)
    (s : UpdateValues) (db' : Database) :
  update_profiles c now db where_ s = inr db' ->
  Forall2 (fun old new =>
             new = old
             \/ (where_ old = true
                 /\ new = update_updated_at_column now (apply_set s old)
                 /\ updated_at new = now
                 /\ ((updated_at old < updated_at new)%Z
                     <-> (updated_at old < now)%Z)))
          (profiles db) (profiles db').
Proof.
  intro H.
  apply PgFacts.update_profiles_inr in H
    as (may & check & tbl & Hrows & _ & _ & _ & ->).
  simpl. apply PgFacts.update_rows_shape in Hrows.
  eapply Forall2_impl; [|exact Hrows].
  intros old new [->|(Hw & _ & _ & ->)]; [left; reflexivity|right].
  repeat split; try assumption; simpl; intro; assumption.
Qed.

End Schema.

(** ** The claims at work on the sample project *)
Section Scenarios.
Import Supabase.

Lemma signUp_keeps_user_witness :
  outcome (exec handle (AuthService.signUp Sample.alice) Sample.empty_project)
  = Fulfilled {| resp_user := Some (as_AuthUser Sample.alice_user);
                 resp_session := Some Sample.alice_session;
                 resp_error := None |}
  /\ console_of
       (trace (exec handle (AuthService.signUp Sample.alice) Sample.empty_project))
     = [console_error "Profile creation error:"
          (Some (postgrest_error Pg.unique_violation))]
  /\ length (filter is_call
       (trace (exec handle (AuthService.signUp Sample.alice) Sample.empty_project)))
     = 2
  /\ after (exec handle (AuthService.signUp Sample.alice) Sample.empty_project)
     = Sample.alice_in.
Proof.
  apply (signUp_keeps_user_when_profile_insert_fails handle Sample.alice
           Sample.empty_project (w1 := Sample.alice_in) (w2 := Sample.alice_in));
    reflexivity.
Defined.

Lemma one_profile_per_user_witness :
  reachable Sample.alice_in
  /\ (forall u, In u (Pg.auth_users (db Sample.alice_in)) ->
        length (Pg.rows_of (Pg.u_id u) (Pg.profiles (db Sample.alice_in))) <= 1)
  /\ length (Pg.profiles
               (db (after (exec handle (AuthService.signUp Sample.alice)
                             Sample.alice_in))))
     <= S (length (Pg.profiles (db Sample.alice_in))).
Proof.
  assert (reachable Sample.alice_in) as R.
  { apply SupabaseFacts.exec_reachable. apply reach_init; reflexivity. }
  split; [exact R|].
  destruct (one_profile_per_user Sample.alice R) as (H1 & _ & H3 & _).
  split; [exact H1 | exact H3].
Defined.

Lemma signup_role_is_stored_but_not_fetched_witness :
  su_role Sample.alice = None
  /\ Pg.select_profiles Pg.owner (db Sample.alice_in)
       (fun q => Pg.id q =? "u1")
     = inr [{| Pg.id := "u1"; Pg.email := "a@x.com";
               Pg.full_name := Some "Alice"; Pg.avatar_url := None;
               Pg.role := user; Pg.created_at := 0%Z; Pg.updated_at := 0%Z |}]
  /\ Pg.select_profiles (Pg.authenticated "u1") (db Sample.alice_in)
       (fun q => Pg.id q =? "u1")
     = inl Pg.infinite_recursion
  /\ outcome (exec handle (AuthService.getUserWithProfile "u1") Sample.alice_in)
     = Fulfilled (Some {| base := Sample.alice_user; profile := None |})
  /\ console_of
       (trace (exec handle (AuthService.getUserWithProfile "u1") Sample.alice_in))
     = [console_error "Profile fetch error:" (Some refused)].
Proof.
  split; [reflexivity|]. split; [reflexivity|].
  destruct (signup_role_is_stored_but_not_fetched Sample.empty_project
              Sample.alice
              (resp := {| resp_user := Some (as_AuthUser Sample.alice_user);
                          resp_session := Some Sample.alice_session;
                          resp_error := None |})
              (au := as_AuthUser Sample.alice_user)
              eq_refl eq_refl eq_refl) as (_ & H2 & H3 & _).
  split; [exact (H2 "u1") | exact (H3 eq_refl)].
Defined.

Lemma updateProfile_without_and_with_a_user_witness :
  (outcome (exec handle (AuthService.updateProfile Sample.rename)
              (fresh Sample.two_users))
   = Fulfilled (Some AuthService.No_authenticated_user)
   /\ db (after (exec handle (AuthService.updateProfile Sample.rename)
                   (fresh Sample.two_users)))
      = Sample.two_users)
  /\ (outcome (exec handle (AuthService.updateProfile Sample.rename)
                 Sample.same_instant)
      = Fulfilled (Some refused)
      /\ Pg.profiles (db (after (exec handle
                                   (AuthService.updateProfile Sample.rename)
                                   Sample.same_instant)))
         = [Sample.alice_row (Some "Alice") 100%Z; Sample.bob_row]).
Proof.
  split.
  - destruct (updateProfile_without_and_with_a_user (fresh Sample.two_users)
                Sample.rename) as [H _].
    destruct (H eq_refl) as (H1 & _ & H3). split; [exact H1 | exact H3].
  - destruct (updateProfile_without_and_with_a_user Sample.same_instant
                Sample.rename) as [_ H].
    destruct (H Sample.alice_session _ eq_refl eq_refl eq_refl)
      as (H1 & H2 & _).
    split; [exact H1 | rewrite H2; reflexivity].
Defined.

(** C5, as the specification has it, fails: an update that succeeds while
    NOW() reads what the row already holds leaves [updated_at] where it
    was, whatever [updated_at] the statement supplies.  The statement is
    run by the owner of the table, whom no policy stops. *)
Lemma updated_at_need_not_increase :
  Pg.update_profiles Pg.owner 100%Z (db Sample.same_instant)
    (fun r => Pg.id r =? "u1")
    (AuthService.update_values Sample.rename 999%Z)
  = inr {| Pg.auth_users := Sample.users_table;
           Pg.profiles := [Sample.alice_row (Some "Alice B") 100%Z;
                           Sample.bob_row] |}
  /\ Pg.profiles (db Sample.same_instant)
     = [Sample.alice_row (Some "Alice") 100%Z; Sample.bob_row]
  /\ ~ (Pg.updated_at (Sample.alice_row (Some "Alice") 100%Z)
        < Pg.updated_at (Sample.alice_row (Some "Alice B") 100%Z))%Z.
Proof.
  repeat split. simpl. lia.
Qed.

Lemma update_writes_NOW_witness :
  Forall2 (fun old new =>
             new = old
             \/ ((Pg.id old =? "u1") = true
                 /\ new = Pg.update_updated_at_column 250%Z
                            (Pg.apply_set
                               (AuthService.update_values Sample.rename 999%Z) old)
                 /\ Pg.updated_at new = 250%Z
                 /\ ((Pg.updated_at old < Pg.updated_at new)%Z
                     <-> (Pg.updated_at old < 250)%Z)))
          (Pg.profiles Sample.two_users)
          [Sample.alice_row (Some "Alice B") 250%Z; Sample.bob_row].
Proof.
  apply (update_writes_NOW 250%Z Sample.two_users Pg.owner
           (fun r => Pg.id r =? "u1")
           (AuthService.update_values Sample.rename 999%Z)
           (db' := {| Pg.auth_users := Sample.users_table;
                      Pg.profiles := [Sample.alice_row (Some "Alice B") 250%Z;
                                      Sample.bob_row] |})).
  reflexivity.
Defined.

Lemma after_signOut_no_user_witness :
  outcome (exec handle AuthService.signOut Sample.alice_in) = Fulfilled None
  /\ outcome (exec handle AuthService.getCurrentUser
                (after (exec handle AuthService.signOut Sample.alice_in)))
     = Fulfilled None.
Proof.
  split; [reflexivity|].
  apply (after_signOut_no_user Sample.alice_in AuthProvider.initial).
  reflexivity.
Defined.

Lemma authenticated_updates_are_refused_witness :
  Pg.role Sample.bob_row = admin
  /\ Pg.update_profiles (Pg.authenticated "u2") 7%Z Sample.two_users
       (fun r => Pg.id r =? "u1")
       (AuthService.update_values Sample.rename 7%Z)
     = inl Pg.infinite_recursion
  /\ Pg.update_profiles (Pg.authenticated "u1") 7%Z Sample.two_users
       (fun r => Pg.id r =? "u1")
       (AuthService.update_values Sample.rename 7%Z)
     = inl Pg.infinite_recursion.
Proof.
  split; [reflexivity|]. split.
  - exact (proj2 (proj2 (authenticated_updates_are_refused 7%Z Sample.two_users
                           "u2" (fun r => Pg.id r =? "u1")
                           (AuthService.update_values Sample.rename 7%Z)))).
  - reflexivity.
Defined.

(** C8, as the specification has it, fails: a user who signed up before
    the migration has no row in [profiles]; the sign-in succeeds and the
    user comes back with no profile attached. *)
Lemma signIn_may_attach_no_profile :
  reachable Sample.before_migration
  /\ outcome (exec handle (AuthService.signIn Sample.old_user)
                Sample.before_migration)
     = Fulfilled
         {| resp_user :=
              Some {| base := {| user_id := "u0"; user_email := Some "old@x.com" |};
                      profile := None |};
            resp_session :=
              Some {| access_token := "u0";
                      session_user :=
                        {| user_id := "u0"; user_email := Some "old@x.com" |} |};
            resp_error := None |}.
Proof.
  split; [apply reach_init; reflexivity | reflexivity].
Qed.

Lemma signIn_attaches_fetched_profile_witness :
  exists v,
    outcome (exec handle
               (AuthService.signIn
                  {| si_email := "a@x.com"; si_password := "secret1" |})
               Sample.alice_in)
    = Fulfilled {| resp_user := v;
                   resp_session := Some Sample.alice_session;
                   resp_error := None |}
    /\ v = Some (as_AuthUser Sample.alice_user)
    /\ In (console_error "Profile fetch error:" (Some refused))
          (console_of
             (trace (exec handle
                       (AuthService.signIn
                          {| si_email := "a@x.com"; si_password := "secret1" |})
                       Sample.alice_in))).
Proof.
  exact (signIn_attaches_fetched_profile handle
           {| si_email := "a@x.com"; si_password := "secret1" |}
           Sample.alice_in
           (w1 := snd (handle (auth_signInWithPassword "a@x.com" "secret1")
                         Sample.alice_in))
           (u := Sample.alice_user) (s := Some Sample.alice_session)
           eq_refl).
Defined.

(** C9, as the specification has it, fails: with nobody signed in the user
    query fails with an error, and getCurrentUser resolves to [null], an
    answer with no error object in it. *)
Lemma getCurrentUser_gives_no_error_object :
  failure_of "auth.getUser"
    (trace (exec handle (invoke call_getCurrentUser) (fresh Pg.empty)))
  = Some session_missing
  /\ outcome (exec handle (invoke call_getCurrentUser) (fresh Pg.empty))
     = Fulfilled (ret_user None)
  /\ error_of (ret_user None) = None.
Proof.
  repeat split.
Qed.

Lemma service_results_witness :
  no_retry (trace (exec handle (invoke (call_signUp Sample.alice))
                     Sample.empty_project)) = true.
Proof.
  exact (proj2 (service_results_and_no_retry handle (call_signUp Sample.alice)
                  Sample.empty_project)).
Defined.

Lemma context_signUp_witness :
  exists answer rest,
    trace (exec handle
             (AuthProvider.signUp "a@x.com" "secret1" (Some "Alice")
                AuthProvider.initial)
             Sample.empty_project)
    = EvCall (auth_signUp "a@x.com" "secret1"
                {| meta_full_name := Some "Alice"; meta_role := Some "user" |})
             answer :: rest.
Proof.
  exact (proj1 (context_signUp_always_sends_role_user handle
                  "a@x.com" "secret1" (Some "Alice") AuthProvider.initial
                  Sample.empty_project)).
Defined.

End Scenarios.


(** * Further properties of the schema *)
Module SchemaFacts.
Import Pg.

(** X1. [ON DELETE CASCADE]: deleting a user takes the profile row of that
    id with it and no other row, and leaves no row of [profiles] pointing at
    a user that is gone. *)
Theorem delete_user_cascades (db : Database) (uid : uuid) :
  rows_of uid (profiles (delete_user db uid)) = []
  /\ ~ In uid (user_ids (auth_users (delete_user db uid)))
  /\ (forall p, In p (profiles (delete_user db uid)) <->
                In p (profiles db) /\ id p <> uid)
  /\ (consistent db = true -> consistent (delete_user db uid) = true).
Proof.
  split; [|split; [|split]].
  - unfold rows_of, delete_user; simpl.
    apply PgFacts.filter_none. intros p Hp.
    apply filter_In in Hp as [_ Hp]. apply negb_true_iff in Hp. exact Hp.
  - unfold delete_user, user_ids; simpl. intro H.
    apply in_map_iff in H as (u & Hu & Hin).
    apply filter_In in Hin as [_ Hne].
    rewrite Hu, String.eqb_refl in Hne. discriminate.
  - intro p. unfold delete_user; simpl. rewrite filter_In, negb_true_iff.
    rewrite String.eqb_neq. reflexivity.
  - apply PgFacts.delete_user_consistent.
Qed.

(** X2. The SELECT policies, as the rewriter takes them: the anonymous
    role, to which no policy applies, is shown no row; every query of an
    authenticated caller, whatever rows it asks for and whatever the table
    holds, is refused with "infinite recursion detected in policy", because
    "Admins can view all profiles" reads [profiles] inside a policy on
    [profiles]; the owner of the table is shown all the rows asked for. *)
Theorem select_policies_frame (db : Database) (where_ : Row -> bool) :
  select_profiles anon db where_ = inr []
  /\ (forall uid,
        In exists_admin (using_exprs (authenticated uid) for_select)
        /\ select_profiles (authenticated uid) db where_
           = inl infinite_recursion)
  /\ select_profiles owner db where_ = inr (filter where_ (profiles db)).
Proof.
  unfold select_profiles. split; [|split].
  - simpl. f_equal. apply PgFacts.filter_none. intros r _. apply andb_false_r.
  - intro uid. split; [right; left; reflexivity | reflexivity].
  - simpl. f_equal. apply filter_ext. intro r. apply andb_true_r.
Qed.

(** X3. The INSERT policy and the constraints: a client's insert that goes
    through was made by an authenticated caller for the row carrying the
    caller's own id, a key the table did not hold, and it appends exactly
    that row with no avatar and both timestamps at NOW(); the anonymous role
    never gets one through. *)
Theorem insert_policy (c : DbRole) (now : timestamptz) (db d : Database)
    (v : InsertValues) :
  c <> owner ->
  insert_profile c now db v = inr d ->
  c = authenticated (v_id v)
  /\ rows_of (v_id v) (profiles db) = []
  /\ exists e,
       v_email v = Some e
       /\ profiles d
          = profiles db ++
            [{| id := v_id v; email := e; full_name := v_full_name v;
                avatar_url := None; role := v_role v;
                created_at := now; updated_at := now |}]
       /\ auth_users d = auth_users db.
Proof.
  intros Hc H.
  apply PgFacts.insert_profile_inr in H as (e & He & Hrls & Hid & _ & _ & ->).
  split; [|split].
  - destruct c as [|uid|]; simpl in Hrls; [discriminate| |contradiction].
    unfold allow_creation_check in Hrls; simpl in Hrls.
    apply String.eqb_eq in Hrls. rewrite Hrls; reflexivity.
  - apply PgFacts.filter_none. intros p Hp.
    destruct (id p =? v_id v) eqn:E; [|reflexivity].
    apply String.eqb_eq in E. apply PgFacts.mem_false in Hid.
    exfalso; apply Hid. rewrite <- E. apply in_map, Hp.
  - exists e. repeat split. exact He.
Qed.

Lemma cast_user_role_inv (s : string) (r : user_role) :
  cast_user_role s = Some r -> s = role_text r.
Proof.
  unfold cast_user_role.
  destruct (s =? "user") eqn:E1;
    [apply String.eqb_eq in E1; intro H; injection H as <-; exact E1|].
  destruct (s =? "admin") eqn:E2;
    [apply String.eqb_eq in E2; intro H; injection H as <-; exact E2|].
  destruct (s =? "instructor") eqn:E3;
    [apply String.eqb_eq in E3; intro H; injection H as <-; exact E3|].
  discriminate.
Qed.

(** X4. The text labels of the role enum round-trip through the cast, and
    nothing else casts. *)
Theorem cast_user_role_spec (s : string) (r : user_role) :
  cast_user_role s = Some r <-> s = role_text r.
Proof.
  split.
  - apply cast_user_role_inv.
  - intros ->. destruct r; reflexivity.
Qed.

(** X7. Every policy is [TO authenticated]: the anonymous role reads no
    row, creates none, and its updates leave the table as it was. *)
Theorem anon_is_shut_out (now : timestamptz) (db : Database)
    (where_ : Row -> bool) :
  consistent db = true ->
  select_profiles anon db where_ = inr []
  /\ (forall v, exists e, insert_profile anon now db v = inl e)
  /\ (forall s, update_profiles anon now db where_ s = inr db).
Proof.
  intro Hc. split; [|split].
  - unfold select_profiles; simpl. f_equal.
    apply PgFacts.filter_none. intros r _. apply andb_false_r.
  - intro v. unfold insert_profile.
    destruct (v_email v); eexists; reflexivity.
  - intro s. apply PgFacts.update_profiles_anon, Hc.
Qed.

(** X20. The sign-up trigger: a new user whose metadata carries a role
    label outside the enum cannot be created at all, the failed cast undoing
    the insert into [auth.users]; a user that is created comes with exactly
    one new profile row, of the same id and e-mail, whose role is the label
    given, or [user] when the metadata has none, and whose [full_name] is the
    name in the metadata, or the empty string. *)
Theorem new_user_comes_with_its_profile (now : timestamptz) (db : Database)
    (NEW : UsersRow) :
  (forall s, meta_role (raw_user_meta_data NEW) = Some s ->
             cast_user_role s = None ->
             exists e, insert_user now db NEW = inl e)
  /\ (forall d, insert_user now db NEW = inr d ->
        exists p,
          auth_users d = auth_users db ++ [NEW]
          /\ profiles d = profiles db ++ [p]
          /\ id p = u_id NEW
          /\ u_email NEW = Some (email p)
          /\ match meta_role (raw_user_meta_data NEW) with
             | None => role p = user
             | Some s => s = role_text (role p)
             end
          /\ full_name p
             = Some (coalesce (meta_full_name (raw_user_meta_data NEW)) "")).
Proof.
  split.
  - intros s Hs Hcast. unfold insert_user.
    destruct (mem _ _); [eexists; reflexivity|].
    unfold handle_new_user. rewrite Hs, Hcast. eexists; reflexivity.
  - intros d H.
    apply PgFacts.insert_user_inr in H as (_ & r & e & Hr & He & _ & ->).
    eexists; simpl; repeat split; try exact He.
    destruct (meta_role (raw_user_meta_data NEW)) as [s|].
    + apply cast_user_role_inv, Hr.
    + injection Hr as <-. reflexivity.
Qed.

End SchemaFacts.

(** * Further properties of the service, for any SDK behaviour *)
Section AnySdkMore.

Variable W : Type.
Variable h : Handler W.

Ltac reply :=
  match goal with
  | |- context [@h ?X ?op ?w] =>
      let x := fresh "x" in
      let e := fresh "e" in
      let w' := fresh "w" in
      let E := fresh "E" in
      destruct (@h X op w) as [[x|e] w'] eqn:E; simpl
  end.
Ltac cases :=
  match goal with
  | |- context [match ?x with _ => _ end] =>
      match x with
      | context [exec] => fail 1
      | _ => destruct x eqn:?
      end
  end.
Ltac through := simpl; repeat (first [reply | cases]; simpl).

Ltac unfold_service :=
  unfold invoke, AuthService.isAdmin, AuthService.hasRole,
    AuthService.updateProfile, AuthService.getCurrentUser,
    AuthService.getUserWithProfile, AuthService.signUp, AuthService.signIn,
    AuthService.signOut, AuthService.getCurrentSession,
    AuthService.resetPassword, AuthService.updatePassword.

(** X9. Only signUp and updateProfile write to a table: every other
    operation runs without a single insert or update call. *)
Theorem read_only_operations_write_nothing (c : ServiceCall) (w : W) :
  read_only c = true ->
  existsb is_table_write (trace (exec h (invoke c) w)) = false.
Proof.
  destruct c; simpl; try discriminate; intros _;
    unfold_service; through; reflexivity.
Qed.

(** X10. signUp tries the profile insert exactly when the provider's
    sign-up answered with no error and with a user, and then once. *)
Theorem signUp_inserts_only_for_a_created_user (d : SignUpData) (w : W) :
  let role := Pg.coalesce (su_role d) user in
  let answer := fst (h (auth_signUp (su_email d) (su_password d)
                          {| meta_full_name := su_fullName d;
                             meta_role := Some (role_text role) |}) w) in
  length (filter is_insert (trace (exec h (AuthService.signUp d) w)))
  = match answer with
    | Fulfilled x =>
        match auth_error x, data_user x with
        | None, Some _ => 1
        | _, _ => 0
        end
    | Rejected _ => 0
    end.
Proof.
  intros role answer; subst role answer.
  unfold AuthService.signUp; through; reflexivity.
Qed.

Ltac unfold_context :=
  unfold AuthProvider.initializeAuth, AuthProvider.onAuthStateChange,
    AuthProvider.signIn, AuthProvider.signUp, AuthProvider.signOut,
    AuthProvider.updateProfile, AuthProvider.resetPassword,
    AuthProvider.finally, AuthProvider.try_, AuthProvider.abind,
    AuthProvider.lift, AuthProvider.setUser, AuthProvider.setSession,
    AuthProvider.setLoading, AuthProvider.setIsAdmin, AuthProvider.throw,
    AuthProvider.ret.

(** X11. Start-up and every auth event leave the context settled: the
    function resolves, [loading] is off, the cached admin flag is what
    [hasRole('admin')] says of the cached user, and without a session there
    is no cached user; the callback also stores the session it was given. *)
Theorem context_flags_follow_the_user (event : string)
    (session : option Session) (c : AuthProvider.State) (w : W) :
  (exists c',
      outcome (exec h (AuthProvider.initializeAuth c) w)
      = Fulfilled (Fulfilled tt, c')
      /\ AuthProvider.loading c' = false
      /\ AuthProvider.isAdmin c' = AuthProvider.hasRole c' admin
      /\ (AuthProvider.st_session c' = None -> AuthProvider.st_user c' = None))
  /\ (exists c',
        outcome (exec h (AuthProvider.onAuthStateChange event session c) w)
        = Fulfilled (Fulfilled tt, c')
        /\ AuthProvider.st_session c' = session
        /\ AuthProvider.loading c' = false
        /\ AuthProvider.isAdmin c' = AuthProvider.hasRole c' admin
        /\ (session = None -> AuthProvider.st_user c' = None)).
Proof.
  split.
  - unfold_context; unfold AuthService.getCurrentSession,
      AuthService.getCurrentUser, AuthService.getUserWithProfile;
      through; eexists; (split; [reflexivity|]); simpl;
      repeat split; congruence.
  - unfold_context; unfold AuthService.getCurrentUser,
      AuthService.getUserWithProfile;
      through; eexists; (split; [reflexivity|]); simpl;
      repeat split; congruence.
Qed.

(** X12. signIn, signUp and signOut of the context run the service call
    and nothing else; they reject with the error the service resolved to
    and switch [loading] off, or resolve and leave [loading] on for the
    auth event to clear; the cached user, session and admin flag are not
    touched by them. *)
Theorem context_sign_calls_settle (email password : string)
    (fullName : option string) (c : AuthProvider.State) (w : W) :
  (let svc := exec h (AuthService.signIn
                        {| si_email := email; si_password := password |}) w in
   let r := exec h (AuthProvider.signIn email password c) w in
   exists v, outcome svc = Fulfilled v
             /\ outcome r = Fulfilled (settles (resp_error v) c)
             /\ after r = after svc /\ trace r = trace svc)
  /\ (let svc := exec h (AuthService.signUp
                           {| su_email := email; su_password := password;
                              su_fullName := fullName;
                              su_role := Some user |}) w in
      let r := exec h (AuthProvider.signUp email password fullName c) w in
      exists v, outcome svc = Fulfilled v
                /\ outcome r = Fulfilled (settles (resp_error v) c)
                /\ after r = after svc /\ trace r = trace svc)
  /\ (let svc := exec h AuthService.signOut w in
      let r := exec h (AuthProvider.signOut c) w in
      exists v, outcome svc = Fulfilled v
                /\ outcome r = Fulfilled (settles v c)
                /\ after r = after svc /\ trace r = trace svc).
Proof.
  split; [|split]; cbv zeta; unfold_context;
    unfold AuthService.signIn, AuthService.signUp, AuthService.signOut,
      AuthService.getUserWithProfile;
    through; eexists; repeat split.
Qed.

Lemma exec_lift (A : Type) (p : Prog A) (c : AuthProvider.State) (w : W) :
  exec h (AuthProvider.lift p c) w
  = {| outcome := Fulfilled (outcome (exec h p w), c);
       after := after (exec h p w);
       trace := trace (exec h p w) |}.
Proof.
  unfold AuthProvider.lift.
  rewrite (exec_try_catch h), (exec_bind h).
  destruct (outcome (exec h p w)); simpl; rewrite app_nil_r; reflexivity.
Qed.

Lemma updateProfile_resolves (updates : ProfileUpdates) (w : W) :
  exists v, outcome (exec h (AuthService.updateProfile updates) w) = Fulfilled v.
Proof.
  unfold AuthService.updateProfile, AuthService.getCurrentUser,
    AuthService.getUserWithProfile; through; eexists; reflexivity.
Qed.

Lemma getCurrentUser_resolves (w : W) :
  exists u, outcome (exec h AuthService.getCurrentUser w) = Fulfilled u.
Proof.
  unfold AuthService.getCurrentUser, AuthService.getUserWithProfile;
    through; eexists; reflexivity.
Qed.

(** X13. updateProfile of the context: when the service resolves to an
    error it rejects with it and leaves the cells as they were; otherwise it
    asks for the current user once more and stores the answer as the cached
    user, leaving session, [loading] and the admin flag as they were. *)
Theorem context_updateProfile_refreshes_user (updates : ProfileUpdates)
    (c : AuthProvider.State) (w : W) :
  let svc := exec h (AuthService.updateProfile updates) w in
  let again := exec h AuthService.getCurrentUser (after svc) in
  let r := exec h (AuthProvider.updateProfile updates c) w in
  exists v, outcome svc = Fulfilled v
    /\ match v with
       | Some e =>
           outcome r = Fulfilled (Rejected e, c)
           /\ after r = after svc /\ trace r = trace svc
       | None =>
           exists u, outcome again = Fulfilled u
             /\ outcome r = Fulfilled (Fulfilled tt, user_set u c)
             /\ after r = after again
             /\ trace r = trace svc ++ trace again
       end.
Proof.
  intros svc again r.
  destruct (updateProfile_resolves updates w) as [v Hv].
  destruct (getCurrentUser_resolves (after svc)) as [u Hu].
  fold svc in Hv. fold again in Hu.
  exists v; split; [exact Hv|].
  subst r. unfold AuthProvider.updateProfile, AuthProvider.try_,
    AuthProvider.abind.
  rewrite !(exec_bind h), exec_lift. fold svc. cbn [outcome after trace].
  rewrite Hv. destruct v as [e|].
  - unfold AuthProvider.throw. cbn. rewrite !app_nil_r. repeat split.
  - rewrite !(exec_bind h), exec_lift. fold again. cbn [outcome after trace].
    rewrite Hu. unfold AuthProvider.setUser. cbn. rewrite !app_nil_r.
    exists u. repeat split.
Qed.

End AnySdkMore.

(** * Further properties on the backend *)
Module BackendFacts.
Import Supabase SupabaseFacts.

(** [auth.getUser()] answers with an error and no user, or with the user
    of the session; the world is as before either way. *)
Lemma get_user_cases (w : World) :
  (exists e, handle auth_getUser w
             = (Fulfilled {| got_user := None; got_error := Some e |}, w))
  \/ (exists s u,
        online w = true /\ session w = Some s
        /\ handle auth_getUser w
           = (Fulfilled {| got_user := Some (user_of u); got_error := None |}, w)).
Proof.
  unfold handle; simpl. destruct (online w); [|left; eexists; reflexivity].
  unfold get_user. destruct (session w) as [s|]; [|left; eexists; reflexivity].
  destruct (find _ _) as [u|]; [|left; eexists; reflexivity].
  right. exists s, u. repeat split.
Qed.

(** X14. After a sign-up that returned a user, the profile row of that
    user is the one the trigger wrote, not the one the client sent: it has
    the role given (or [user]), the e-mail of the account, as [full_name]
    the name given or the empty string, never NULL, no avatar, and both
    timestamps at the NOW() of the sign-up. *)
Theorem signUp_row_is_the_triggers (w : World) (d : SignUpData)
    (resp : AuthResponse) (au : AuthUser) :
  let r := exec handle (AuthService.signUp d) w in
  outcome r = Fulfilled resp ->
  resp_user resp = Some au ->
  exists p,
    Pg.rows_of (user_id (base au)) (Pg.profiles (db (after r))) = [p]
    /\ Pg.role p = Pg.coalesce (su_role d) user
    /\ Pg.email p = su_email d
    /\ user_email (base au) = Some (Pg.email p)
    /\ Pg.full_name p = Some (Pg.coalesce (su_fullName d) "")
    /\ Pg.avatar_url p = None
    /\ Pg.created_at p = NOW w
    /\ Pg.updated_at p = NOW w.
Proof.
  intros r Hout Hau.
  destruct (signUp_run d w) as [(e & Hout' & _)|(i & rest & e & Hrun)].
  { subst r. rewrite Hout' in Hout. injection Hout as <-. discriminate. }
  destruct Hrun as (_ & _ & Hfresh & _ & Hout' & Hp & _).
  fold r in Hout', Hp.
  rewrite Hout' in Hout. injection Hout as <-.
  simpl in Hau. injection Hau as <-.
  exists (trigger_row d i (NOW w)). split; [|repeat split].
  rewrite Hp. apply rows_of_snoc; [exact Hfresh | reflexivity].
Qed.

(** X15. getUserWithProfile answers with the signed-in user, whatever id
    it is asked about, and never with a profile: the profile query of a
    signed-in client is refused by the policies, the error is logged, and
    the caller comes back alone.  Nothing in the world has changed. *)
Theorem getUserWithProfile_is_about_the_caller (w : World) (s : Session)
    (u : Pg.UsersRow) (target : uuid) :
  online w = true ->
  session w = Some s ->
  find (fun r => Pg.u_id r =? user_id (session_user s)) (Pg.auth_users (db w))
    = Some u ->
  let r := exec handle (AuthService.getUserWithProfile target) w in
  outcome r = Fulfilled (Some (as_AuthUser (user_of u)))
  /\ console_of (trace r)
     = [console_error "Profile fetch error:" (Some refused)]
  /\ after r = w.
Proof.
  intros On Hs Hf r; subst r.
  unfold AuthService.getUserWithProfile; simpl.
  rewrite (get_user_signed_in w On Hs Hf); simpl.
  rewrite (handle_select_refused target w On Hs); simpl.
  repeat split.
Qed.

(** X16. On this backend hasRole resolves to [false] for every role and
    isAdmin to [false], in every world: signed out there is no user, and
    signed in the profile the role would be read from is never fetched. *)
Theorem hasRole_is_always_false (w : World) (role : user_role) :
  outcome (exec handle (AuthService.hasRole role) w) = Fulfilled false
  /\ outcome (exec handle AuthService.isAdmin w) = Fulfilled false.
Proof.
  assert (forall ro, outcome (exec handle (AuthService.hasRole ro) w)
                     = Fulfilled false) as H.
  { intro ro.
    unfold AuthService.hasRole, AuthService.getCurrentUser,
      AuthService.getUserWithProfile; simpl.
    destruct (get_user_cases w) as [[e He]|(s & u & On & Hs & Hg)].
    - rewrite He; reflexivity.
    - rewrite Hg; simpl. rewrite Hg; simpl.
      rewrite (handle_select_refused (Pg.u_id u) w On Hs); simpl.
      reflexivity. }
  split; [apply H | apply (H admin)].
Qed.

(** X17. In every state the system can reach no two profile rows share an
    e-mail and no two users share an id, and an insert that brings an e-mail
    the table already holds is refused, whoever makes it. *)
Theorem emails_stay_unique (w : World) :
  reachable w ->
  NoDup (Pg.emails (Pg.profiles (db w)))
  /\ NoDup (Pg.user_ids (Pg.auth_users (db w)))
  /\ (forall c now v e,
        Pg.v_email v = Some e ->
        In e (Pg.emails (Pg.profiles (db w))) ->
        exists err, Pg.insert_profile c now (db w) v = inl err).
Proof.
  intro Hw. pose proof (reachable_consistent Hw) as Hc.
  apply PgFacts.consistent_spec in Hc as (_ & H2 & H3 & _).
  split; [exact H2|split; [exact H3|]].
  intros c now v e He Hin. unfold Pg.insert_profile. rewrite He. cbv zeta.
  destruct (negb _); [eexists; reflexivity|].
  destruct (Pg.mem _ (Pg.ids _)); [eexists; reflexivity|].
  apply PgFacts.mem_In in Hin. rewrite Hin. eexists; reflexivity.
Qed.

(** X18. A sign-up is all or nothing on the database: when it resolves
    with an error no row of [auth.users] or [profiles] has changed, and when
    it resolves without one exactly one user and exactly one profile have
    been added; it never leaves a new user without a profile. *)
Theorem signUp_is_all_or_nothing (w : World) (d : SignUpData)
    (resp : AuthResponse) :
  let r := exec handle (AuthService.signUp d) w in
  outcome r = Fulfilled resp ->
  match resp_error resp with
  | Some _ => db (after r) = db w /\ resp_user resp = None
  | None =>
      exists i,
        resp_user resp = Some (as_AuthUser (signed_up d i))
        /\ Pg.auth_users (db (after r)) = Pg.auth_users (db w) ++ [users_row d i]
        /\ Pg.profiles (db (after r))
           = Pg.profiles (db w) ++ [trigger_row d i (NOW w)]
  end.
Proof.
  intros r Hout.
  destruct (signUp_run d w) as [(e & Hout' & Hdb)|(i & rest & e & Hrun)].
  - fold r in Hout', Hdb. rewrite Hout' in Hout. injection Hout as <-.
    simpl. split; [exact Hdb | reflexivity].
  - destruct Hrun as (_ & _ & _ & _ & Hout' & Hp & Hu & _).
    fold r in Hout', Hp, Hu. rewrite Hout' in Hout. injection Hout as <-.
    simpl. exists i. repeat split; assumption.
Qed.



End BackendFacts.

(** * The further properties at work on the sample project *)
Section MoreScenarios.
Import Supabase.

Lemma insert_policy_witness :
  Pg.authenticated "u0" = Pg.authenticated (Pg.v_id Sample2.old_values)
  /\ Pg.rows_of (Pg.v_id Sample2.old_values) (Pg.profiles Sample2.old_db) = []
  /\ exists e,
       Pg.v_email Sample2.old_values = Some e
       /\ Pg.profiles
            {| Pg.auth_users := Pg.auth_users Sample2.old_db;
               Pg.profiles :=
                 [{| Pg.id := "u0"; Pg.email := "old@x.com";
                     Pg.full_name := None; Pg.avatar_url := None;
                     Pg.role := user;
                     Pg.created_at := 5%Z; Pg.updated_at := 5%Z |}] |}
          = Pg.profiles Sample2.old_db ++
            [{| Pg.id := Pg.v_id Sample2.old_values; Pg.email := e;
                Pg.full_name := Pg.v_full_name Sample2.old_values;
                Pg.avatar_url := None; Pg.role := Pg.v_role Sample2.old_values;
                Pg.created_at := 5%Z; Pg.updated_at := 5%Z |}]
       /\ Pg.auth_users
            {| Pg.auth_users := Pg.auth_users Sample2.old_db;
               Pg.profiles :=
                 [{| Pg.id := "u0"; Pg.email := "old@x.com";
                     Pg.full_name := None; Pg.avatar_url := None;
                     Pg.role := user;
                     Pg.created_at := 5%Z; Pg.updated_at := 5%Z |}] |}
          = Pg.auth_users Sample2.old_db.
Proof.
  apply (SchemaFacts.insert_policy (c := Pg.authenticated "u0") 5%Z
           Sample2.old_db Sample2.old_values).
  - discriminate.
  - reflexivity.
Defined.

Lemma anon_is_shut_out_witness :
  Pg.select_profiles Pg.anon Sample.two_users (fun _ => true) = inr []
  /\ (forall v, exists e, Pg.insert_profile Pg.anon 9%Z Sample.two_users v = inl e)
  /\ (forall s, Pg.update_profiles Pg.anon 9%Z Sample.two_users (fun _ => true) s
                = inr Sample.two_users).
Proof.
  apply (SchemaFacts.anon_is_shut_out 9%Z Sample.two_users (fun _ => true)).
  reflexivity.
Defined.

Lemma read_only_operations_witness :
  existsb is_table_write
    (trace (exec handle (invoke (call_signIn Sample.old_user))
              Sample.before_migration))
  = false.
Proof.
  apply (read_only_operations_write_nothing handle
           (call_signIn Sample.old_user) Sample.before_migration).
  reflexivity.
Defined.

Lemma signUp_row_is_the_triggers_witness :
  exists p,
    Pg.rows_of "u1" (Pg.profiles (db Sample.alice_in)) = [p]
    /\ Pg.role p = user
    /\ Pg.email p = "a@x.com"
    /\ user_email Sample.alice_user = Some (Pg.email p)
    /\ Pg.full_name p = Some "Alice"
    /\ Pg.avatar_url p = None
    /\ Pg.created_at p = 0%Z
    /\ Pg.updated_at p = 0%Z.
Proof.
  exact (BackendFacts.signUp_row_is_the_triggers Sample.empty_project Sample.alice
           (resp := Sample2.alice_response)
           (au := as_AuthUser Sample.alice_user) eq_refl eq_refl).
Defined.

Lemma getUserWithProfile_is_about_the_caller_witness :
  outcome (exec handle (AuthService.getUserWithProfile "u2") Sample.same_instant)
  = Fulfilled (Some (as_AuthUser Sample.alice_user))
  /\ outcome (exec handle (AuthService.getUserWithProfile "u1")
                Sample.same_instant)
     = Fulfilled (Some (as_AuthUser Sample.alice_user)).
Proof.
  split.
  - exact (proj1 (BackendFacts.getUserWithProfile_is_about_the_caller
                    Sample.same_instant (s := Sample.alice_session)
                    (u := Sample2.alice_users_row) "u2"
                    eq_refl eq_refl eq_refl)).
  - reflexivity.
Defined.

Lemma emails_stay_unique_witness :
  NoDup (Pg.emails (Pg.profiles (db Sample.alice_in)))
  /\ NoDup (Pg.user_ids (Pg.auth_users (db Sample.alice_in))).
Proof.
  assert (reachable Sample.alice_in) as R.
  { apply SupabaseFacts.exec_reachable. apply reach_init; reflexivity. }
  destruct (BackendFacts.emails_stay_unique R) as (H1 & H2 & _).
  split; [exact H1 | exact H2].
Defined.

Lemma signUp_is_all_or_nothing_witness :
  exists i,
    resp_user Sample2.alice_response = Some (as_AuthUser (signed_up Sample.alice i))
    /\ Pg.auth_users (db Sample.alice_in)
       = Pg.auth_users (db Sample.empty_project) ++ [users_row Sample.alice i]
    /\ Pg.profiles (db Sample.alice_in)
       = Pg.profiles (db Sample.empty_project)
         ++ [trigger_row Sample.alice i (NOW Sample.empty_project)].
Proof.
  exact (BackendFacts.signUp_is_all_or_nothing Sample.empty_project Sample.alice
           (resp := Sample2.alice_response) eq_refl).
Defined.


End MoreScenarios.
